(** * Aircraft service-request client: request store, workflows and views

    A shallow embedding of [src/types.ts], [src/api.ts] and the
    [MainApplication] component (the request store, the confirmation
    workflows and the projected views), with the properties of the written
    specification stated over it.

    Conventions of the embedding.
    - Data follows the TypeScript declarations of [types.ts]: the entity is
      a record, the two enums are inductive types, optional fields are
      [option]s.
    - A JavaScript number is [number]: [NaN] or an integer-valued double
      [Num z].  Time values, hours and minutes are the only numbers the
      modelled code computes with.
    - A string is a [string] whose characters are read as code units below
      256 (Latin-1).
    - The remote service, the clock and the time zone are the environment:
      the service and the clock are an oracle ([World]), the time zone and
      the engine's date-string parser are section variables.
    - An [async] function is a term of [Async]: a tree of the effects it
      performs (network call, clock read, React state setter), run against
      a [World] by [run]. *)

From Stdlib Require Import ZArith List String Ascii Bool Lia.
From Stdlib Require Import Permutation Sorted.
Import ListNotations.
Local Open Scope string_scope.
Local Open Scope Z_scope.

(** ** JavaScript values used by the program *)

Inductive number : Type :=
| NaN
| Num (z : Z).

(** A raw value as it arrives in a decoded JSON record, [JsUndefined]
    standing for an absent property. *)
Inductive JsValue : Type :=
| JsUndefined
| JsNull
| JsBoolean (b : bool)
| JsNumber (z : Z)
| JsString (s : string).

(** ToBoolean. *)
Definition truthy (v : JsValue) : bool :=
  match v with
  | JsUndefined | JsNull => false
  | JsBoolean b => b
  | JsNumber z => negb (z =? 0)
  | JsString s => negb (s =? "")%string
  end.

(** ToNumber on the non-string values. *)
Definition ToNumber (v : JsValue) : number :=
  match v with
  | JsUndefined => NaN
  | JsNull => Num 0
  | JsBoolean b => Num (if b then 1 else 0)
  | JsNumber z => Num z
  | JsString _ => NaN
  end.

(** ** Strings *)

Module Str.

Definition code (c : ascii) : N := N_of_ascii c.

(** WhiteSpace and LineTerminator code units below 256: TAB, LF, VT, FF,
    CR, SP and NBSP. *)
Definition isWhiteSpace (c : ascii) : bool :=
  let n := code c in
  ((9 <=? n) && (n <=? 13) || (n =? 32) || (n =? 160))%N.

Fixpoint trimStart (s : string) : string :=
  match s with
  | EmptyString => EmptyString
  | String c s' => if isWhiteSpace c then trimStart s' else s
  end.

Fixpoint trimEnd (s : string) : string :=
  match s with
  | EmptyString => EmptyString
  | String c s' =>
      match trimEnd s' with
      | EmptyString => if isWhiteSpace c then EmptyString else String c EmptyString
      | t => String c t
      end
  end.

(** [String.prototype.trim]. *)
Definition trim (s : string) : string := trimEnd (trimStart s).

(** Lower-case mapping of one code unit: A-Z and the Latin-1 capitals
    (U+00C0..U+00DE except the multiplication sign U+00D7). *)
Definition lowerChar (c : ascii) : ascii :=
  let n := code c in
  if ((65 <=? n) && (n <=? 90)
      || (192 <=? n) && (n <=? 222) && negb (n =? 215))%N
  then ascii_of_N (n + 32) else c.

Fixpoint toLowerCase (s : string) : string :=
  match s with
  | EmptyString => EmptyString
  | String c s' => String (lowerChar c) (toLowerCase s')
  end.

(** [s.includes(t)]: [t] occurs in [s] as a contiguous run. *)
Fixpoint includes (s t : string) : bool :=
  if prefix t s then true
  else match s with
       | EmptyString => false
       | String _ s' => includes s' t
       end.

(** [s.split(sep)] for a one-character separator. *)
Fixpoint split (sep : ascii) (s : string) : list string :=
  match s with
  | EmptyString => [EmptyString]
  | String c s' =>
      if Ascii.eqb c sep then EmptyString :: split sep s'
      else match split sep s' with
           | [] => [String c EmptyString]
           | p :: ps => String c p :: ps
           end
  end.

Definition isDigit (c : ascii) : bool :=
  let n := code c in ((48 <=? n) && (n <=? 57))%N.

Definition digitValue (c : ascii) : Z := Z.of_N (code c) - 48.

Fixpoint allDigits (s : string) : bool :=
  match s with
  | EmptyString => true
  | String c s' => isDigit c && allDigits s'
  end.

(** Value of a run of decimal digits, most significant first. *)
Fixpoint digitsValue (acc : Z) (s : string) : Z :=
  match s with
  | EmptyString => acc
  | String c s' => digitsValue (10 * acc + digitValue c) s'
  end.

Definition digitChar (d : Z) : ascii := ascii_of_N (Z.to_N (48 + d)).

Fixpoint decimalFuel (fuel : nat) (n : Z) (acc : string) : string :=
  match fuel with
  | O => acc
  | S fuel' =>
      let acc' := String (digitChar (n mod 10)) acc in
      if n / 10 =? 0 then acc' else decimalFuel fuel' (n / 10) acc'
  end.

(** Decimal numeral of an integer, as template literals and number
    formatting print it. *)
Definition decimal (n : Z) : string :=
  if n <? 0 then String "-" (decimalFuel (Z.to_nat (Z.log2 (- n)) + 1) (- n) "")
  else decimalFuel (Z.to_nat (Z.log2 n) + 1) n "".

(** Two-digit field of a date pattern. *)
Definition pad2 (n : Z) : string :=
  if n <? 10 then String "0" (decimal n) else decimal n.

End Str.

(** [Number(s)] on a string.  Modelled fragment of StringNumericLiteral:
    surrounding white space, the empty literal (which is 0) and unsigned or
    signed runs of decimal digits.  Fractions, exponents, radix prefixes and
    [Infinity] do not denote integers a time field can hold here and are
    read as [NaN]. *)
Definition Number_ (s : string) : number :=
  match Str.trim s with
  | EmptyString => Num 0
  | String c rest as t =>
      if Str.allDigits t then Num (Str.digitsValue 0 t)
      else if (Ascii.eqb c "-" && negb (rest =? "")%string && Str.allDigits rest)%bool
           then Num (- Str.digitsValue 0 rest)
      else if (Ascii.eqb c "+" && negb (rest =? "")%string && Str.allDigits rest)%bool
           then Num (Str.digitsValue 0 rest)
      else NaN
  end.

(** ** Time values and dates (ECMAScript, Date objects) *)

Module Time.

Definition msPerSecond : Z := 1000.
Definition msPerMinute : Z := 60000.
Definition msPerHour : Z := 3600000.
Definition msPerDay : Z := 86400000.
Definition maxTime : Z := 8640000000000000.

Definition Day (t : Z) : Z := t / msPerDay.
Definition TimeWithinDay (t : Z) : Z := t mod msPerDay.

Definition DayFromYear (y : Z) : Z :=
  365 * (y - 1970) + (y - 1969) / 4 - (y - 1901) / 100 + (y - 1601) / 400.

Definition isLeap (y : Z) : bool :=
  (y mod 4 =? 0) && (negb (y mod 100 =? 0) || (y mod 400 =? 0)).

Definition DaysInYear (y : Z) : Z := if isLeap y then 366 else 365.

(** Walks from an estimate to the year whose first day is the latest one
    not after day [d]. *)
Fixpoint adjustYear (fuel : nat) (y d : Z) : Z :=
  match fuel with
  | O => y
  | S fuel' =>
      if d <? DayFromYear y then adjustYear fuel' (y - 1) d
      else if DayFromYear (y + 1) <=? d then adjustYear fuel' (y + 1) d
      else y
  end.

(** The largest [y] with [TimeFromYear y <= t]. *)
Definition YearFromTime (t : Z) : Z :=
  adjustYear 3 (1970 + Day t * 400 / 146097) (Day t).

Definition InLeapYear (t : Z) : Z :=
  if isLeap (YearFromTime t) then 1 else 0.

Definition DayWithinYear (t : Z) : Z := Day t - DayFromYear (YearFromTime t).

Definition MonthFromTime (t : Z) : Z :=
  let d := DayWithinYear t in
  let leap := InLeapYear t in
  if d <? 31 then 0
  else if d <? 59 + leap then 1
  else if d <? 90 + leap then 2
  else if d <? 120 + leap then 3
  else if d <? 151 + leap then 4
  else if d <? 181 + leap then 5
  else if d <? 212 + leap then 6
  else if d <? 243 + leap then 7
  else if d <? 273 + leap then 8
  else if d <? 304 + leap then 9
  else if d <? 334 + leap then 10
  else 11.

Definition DateFromTime (t : Z) : Z :=
  let d := DayWithinYear t in
  let leap := InLeapYear t in
  match MonthFromTime t with
  | 0 => d + 1
  | 1 => d - 30
  | 2 => d - 58 - leap
  | 3 => d - 89 - leap
  | 4 => d - 119 - leap
  | 5 => d - 150 - leap
  | 6 => d - 180 - leap
  | 7 => d - 211 - leap
  | 8 => d - 242 - leap
  | 9 => d - 272 - leap
  | 10 => d - 303 - leap
  | _ => d - 333 - leap
  end.


Definition MakeTime (hour min sec ms : number) : number :=
  match hour, min, sec, ms with
  | Num h, Num m, Num s, Num milli =>
      Num (h * msPerHour + m * msPerMinute + s * msPerSecond + milli)
  | _, _, _, _ => NaN
  end.

Definition daysBeforeMonth (leap : bool) (mn : Z) : Z :=
  let l := if leap then 1 else 0 in
  match mn with
  | 0 => 0
  | 1 => 31
  | 2 => 59 + l
  | 3 => 90 + l
  | 4 => 120 + l
  | 5 => 151 + l
  | 6 => 181 + l
  | 7 => 212 + l
  | 8 => 243 + l
  | 9 => 273 + l
  | 10 => 304 + l
  | _ => 334 + l
  end.

(** Day number of the given year, month (0-based) and day of month. *)
Definition MakeDay (year month date : Z) : Z :=
  let ym := year + month / 12 in
  let mn := month mod 12 in
  DayFromYear ym + daysBeforeMonth (isLeap ym) mn + date - 1.

Definition MakeDate (day : Z) (time : number) : number :=
  match time with
  | Num tm => Num (day * msPerDay + tm)
  | NaN => NaN
  end.

Definition TimeClip (time : number) : number :=
  match time with
  | Num t => if Z.abs t <=? maxTime then Num t else NaN
  | NaN => NaN
  end.

(** A time zone: [tza t true] is the offset in force at the UTC instant
    [t], [tza t false] the offset by which the local time [t] is read. *)
Definition LocalTime (tza : Z -> bool -> Z) (t : Z) : Z := t + tza t true.
Definition UTC (tza : Z -> bool -> Z) (t : Z) : Z := t - tza t false.

(** The local time value of a civil date and time of day. *)
Definition civil (year month1 date hour min sec : Z) : Z :=
  MakeDay year (month1 - 1) date * msPerDay
  + hour * msPerHour + min * msPerMinute + sec * msPerSecond.

End Time.

Record Date : Type := mkDate { getTime : number }.

Definition InvalidDate : Date := mkDate NaN.

Definition validDate (d : Date) : Prop := exists t, getTime d = Num t.

(** [new Date()] at the clock reading [now]. *)
Definition Date_now (now : Z) : Date := mkDate (Time.TimeClip (Num now)).

(** [new Date(d)] for a Date [d]: a copy with the same time value. *)
Definition Date_copy (d : Date) : Date := mkDate (getTime d).

(** [new Date(v)] for a raw value: a string goes through the engine's
    parser, anything else through ToNumber. *)
Definition Date_of (parse : string -> number) (v : JsValue) : Date :=
  match v with
  | JsString s => mkDate (Time.TimeClip (parse s))
  | _ => mkDate (Time.TimeClip (ToNumber v))
  end.

(** [d.setHours(hour, min, sec, ms)] with all four arguments present;
    returns the updated Date. *)
Definition setHours (tza : Z -> bool -> Z) (d : Date) (hour min sec ms : number) : Date :=
  match getTime d with
  | NaN => mkDate NaN
  | Num tv =>
      let t := Time.LocalTime tza tv in
      match Time.MakeDate (Time.Day t) (Time.MakeTime hour min sec ms) with
      | NaN => mkDate NaN
      | Num date => mkDate (Time.TimeClip (Num (Time.UTC tza date)))
      end
  end.

(** [d.toLocaleDateString('en-CA')]: the locale's numeric date pattern is
    y-MM-dd over the local calendar date (year of era, not padded). *)
Definition toLocaleDateString_enCA (tza : Z -> bool -> Z) (d : Date) : string :=
  match getTime d with
  | NaN => "Invalid Date"
  | Num tv =>
      let t := Time.LocalTime tza tv in
      let y := Time.YearFromTime t in
      let yearOfEra := if y <=? 0 then 1 - y else y in
      (Str.decimal yearOfEra ++ "-"
       ++ Str.pad2 (Time.MonthFromTime t + 1) ++ "-"
       ++ Str.pad2 (Time.DateFromTime t))%string
  end.

(** The form of a date input's value. *)
Definition ymd (year month1 date : Z) : string :=
  (Str.decimal year ++ "-" ++ Str.pad2 month1 ++ "-" ++ Str.pad2 date)%string.

(** Two environments used in the examples: the UTC zone, a zone five hours
    behind UTC, and a parser for the UTC form of the date-time string
    format, YYYY-MM-DDTHH:mm:ss[.sss]Z, rejecting every other string. *)
Definition utcZone : Z -> bool -> Z := fun _ _ => 0.
Definition westZone : Z -> bool -> Z := fun _ _ => - 5 * Time.msPerHour.

Definition isoParse (s : string) : number :=
  let num n m := Str.digitsValue 0 (substring n m s) in
  let digits n m := Str.allDigits (substring n m s) in
  let at_ n c := match get n s with Some c' => Ascii.eqb c' c | None => false end in
  let len := String.length s in
  let frac := Nat.eqb len 24 in
  let shape :=
    (Nat.eqb len 20 || frac)
    && digits 0%nat 4%nat && at_ 4%nat "-"%char && digits 5%nat 2%nat && at_ 7%nat "-"%char
    && digits 8%nat 2%nat && at_ 10%nat "T"%char && digits 11%nat 2%nat && at_ 13%nat ":"%char
    && digits 14%nat 2%nat && at_ 16%nat ":"%char && digits 17%nat 2%nat
    && (if frac then at_ 19%nat "."%char && digits 20%nat 3%nat && at_ 23%nat "Z"%char
        else at_ 19%nat "Z"%char) in
  let y := num 0%nat 4%nat in
  let mo := num 5%nat 2%nat in
  let d := num 8%nat 2%nat in
  let h := num 11%nat 2%nat in
  let mi := num 14%nat 2%nat in
  let sec := num 17%nat 2%nat in
  let ms := if frac then num 20%nat 3%nat else 0 in
  let dim := Time.daysBeforeMonth (Time.isLeap y) mo
             - Time.daysBeforeMonth (Time.isLeap y) (mo - 1) in
  let dim := if mo =? 12 then 31 else dim in
  if shape && (1 <=? mo) && (mo <=? 12) && (1 <=? d) && (d <=? dim)
     && (h <? 24) && (mi <? 60) && (sec <? 60)
  then Time.MakeDate (Time.MakeDay y (mo - 1) d)
         (Time.MakeTime (Num h) (Num mi) (Num sec) (Num ms))
  else NaN.

(** ** types.ts *)

Inductive RequestStatus : Type := Pending | Completed.

Inductive ServiceType : Type := Connect | Disconnect | Replace.

Definition RequestStatus_eqb (a b : RequestStatus) : bool :=
  match a, b with
  | Pending, Pending | Completed, Completed => true
  | _, _ => false
  end.

Definition ServiceType_eqb (a b : ServiceType) : bool :=
  match a, b with
  | Connect, Connect | Disconnect, Disconnect | Replace, Replace => true
  | _, _ => false
  end.

Record ServiceRequest : Type := mkServiceRequest {
  id : string;
  staffName : string;
  staffNumber : string;
  aircraftBay : string;
  flightNumber : string;
  requestTime : Date;
  completionTime : option Date;
  status : RequestStatus;
  serviceType : ServiceType;
  aircraftEta : string;
  deliveryStaffName : option string;
  deliveryStaffNumber : option string
}.

Module Notif.
Inductive kind : Type := success | error | info.
Record NotificationMessage : Type := mk {
  id : string;
  message : string;
  type : kind
}.
End Notif.

(** A filter value [T | 'ALL']. *)
Inductive Filter (T : Type) : Type :=
| ALL
| Only (v : T).
Arguments ALL {T}.
Arguments Only {T} v.

(** ** The wire contract of the remote service *)

(** A record as the service returns it (snake_case).  The text and enum
    fields have the types the TypeScript entity promises for them; the two
    time stamps are kept raw, since [new Date] accepts any value. *)
Module Wire.
Record t : Type := mk {
  id : string;
  staff_name : string;
  staff_number : string;
  aircraft_bay : string;
  flight_number : string;
  request_time : JsValue;
  completion_time : JsValue;
  status : RequestStatus;
  service_type : ServiceType;
  aircraft_eta : string;
  delivery_staff_name : option string;
  delivery_staff_number : option string
}.
End Wire.

(** The fields [createRequest] copies into the POST body. *)
Module NewRequest.
Record t : Type := mk {
  staffName : string;
  staffNumber : string;
  aircraftBay : string;
  flightNumber : string;
  serviceType : ServiceType;
  aircraftEta : string
}.
End NewRequest.

(** [Partial<Omit<ServiceRequest, 'id'>>]: the PATCH body. *)
Module Updates.
Record t : Type := mk {
  staffName : option string;
  staffNumber : option string;
  aircraftBay : option string;
  flightNumber : option string;
  requestTime : option Date;
  completionTime : option Date;
  status : option RequestStatus;
  serviceType : option ServiceType;
  aircraftEta : option string;
  deliveryStaffName : option string;
  deliveryStaffNumber : option string
}.
End Updates.

Inductive Method : Type := GET | POST | PATCH | DELETE.

(** The object handed to [JSON.stringify] for the request body. *)
Inductive Body : Type :=
| NoBody
| CreateBody (b : NewRequest.t)
| UpdateBody (u : Updates.t).

Record Request : Type := mkRequest {
  url : string;
  method : Method;
  body : Body
}.

(** A JSON response body: one wire record or an array of them. *)
Inductive Json : Type :=
| JsonRecord (w : Wire.t)
| JsonArray (ws : list Wire.t).

(** A fetch [Response]: [json] is what [response.json()] resolves with,
    [None] when it rejects. *)
Record Response : Type := mkResponse {
  ok : bool;
  statusCode : Z;
  statusText : string;
  text : string;
  content_type : option string;
  json : option Json
}.

(** What [processResponse] returns: the parsed body or the literal [{}]. *)
Inductive ResponseData : Type :=
| EmptyObject
| Data (j : Json).

(** ** Component state (the [useState] cells of [MainApplication]) *)

Record AppState : Type := mkAppState {
  requests : list ServiceRequest;
  isLoading : bool;
  error : option string;
  statusFilter : Filter RequestStatus;
  serviceTypeFilter : Filter ServiceType;
  dateFilter : string;
  searchTerm : string;
  confirmingComplete : option string;
  confirmingDelete : option string;
  completingDelivery : option string;
  notifications : list Notif.NotificationMessage
}.

Definition setRequests (f : list ServiceRequest -> list ServiceRequest) (s : AppState) : AppState :=
  mkAppState (f (requests s)) (isLoading s) (error s) (statusFilter s)
    (serviceTypeFilter s) (dateFilter s) (searchTerm s) (confirmingComplete s)
    (confirmingDelete s) (completingDelivery s) (notifications s).

Definition setIsLoading (b : bool) (s : AppState) : AppState :=
  mkAppState (requests s) b (error s) (statusFilter s)
    (serviceTypeFilter s) (dateFilter s) (searchTerm s) (confirmingComplete s)
    (confirmingDelete s) (completingDelivery s) (notifications s).

Definition setError (e : option string) (s : AppState) : AppState :=
  mkAppState (requests s) (isLoading s) e (statusFilter s)
    (serviceTypeFilter s) (dateFilter s) (searchTerm s) (confirmingComplete s)
    (confirmingDelete s) (completingDelivery s) (notifications s).

Definition setConfirmingComplete (v : option string) (s : AppState) : AppState :=
  mkAppState (requests s) (isLoading s) (error s) (statusFilter s)
    (serviceTypeFilter s) (dateFilter s) (searchTerm s) v
    (confirmingDelete s) (completingDelivery s) (notifications s).

Definition setConfirmingDelete (v : option string) (s : AppState) : AppState :=
  mkAppState (requests s) (isLoading s) (error s) (statusFilter s)
    (serviceTypeFilter s) (dateFilter s) (searchTerm s) (confirmingComplete s)
    v (completingDelivery s) (notifications s).

Definition setCompletingDelivery (v : option string) (s : AppState) : AppState :=
  mkAppState (requests s) (isLoading s) (error s) (statusFilter s)
    (serviceTypeFilter s) (dateFilter s) (searchTerm s) (confirmingComplete s)
    (confirmingDelete s) v (notifications s).

Definition setNotifications
  (f : list Notif.NotificationMessage -> list Notif.NotificationMessage)
  (s : AppState) : AppState :=
  mkAppState (requests s) (isLoading s) (error s) (statusFilter s)
    (serviceTypeFilter s) (dateFilter s) (searchTerm s) (confirmingComplete s)
    (confirmingDelete s) (completingDelivery s) (f (notifications s)).

(** ** Asynchronous computations *)

(** The effects of an [async] function of the component, in program order:
    a network call awaited, a reading of the clock ([Date.now()],
    [new Date()]), a call of a state setter.  [Throw] is a raised [Error]
    with its message.  [IllTyped] marks a run in which the service answered
    outside its contract with something the typed entity cannot hold (the
    TypeScript program would go on with an object of the wrong shape);
    the properties below leave such runs open.  Console output is not
    modelled. *)
Inductive Async (A : Type) : Type :=
| Ret (a : A)
| Throw (e : string)
| IllTyped
| Fetch (rq : Request) (k : option Response -> Async A)
| Now (k : Z -> Async A)
| SetState (f : AppState -> AppState) (k : Async A).
Arguments Ret {A} a.
Arguments Throw {A} e.
Arguments IllTyped {A}.
Arguments Fetch {A} rq k.
Arguments Now {A} k.
Arguments SetState {A} f k.

Fixpoint bind {A B : Type} (m : Async A) (f : A -> Async B) : Async B :=
  match m with
  | Ret a => f a
  | Throw e => Throw e
  | IllTyped => IllTyped
  | Fetch rq k => Fetch rq (fun r => bind (k r) f)
  | Now k => Now (fun t => bind (k t) f)
  | SetState g k => SetState g (bind k f)
  end.

(** [try { m } catch (err) { h err }]. *)
Fixpoint try_catch {A : Type} (m : Async A) (h : string -> Async A) : Async A :=
  match m with
  | Ret a => Ret a
  | Throw e => h e
  | IllTyped => IllTyped
  | Fetch rq k => Fetch rq (fun r => try_catch (k r) h)
  | Now k => Now (fun t => try_catch (k t) h)
  | SetState g k => SetState g (try_catch k h)
  end.

Declare Scope async_scope.
Delimit Scope async_scope with async.
Notation "x <- m ;; k" := (bind m (fun x => k))
  (at level 61, m at next level, right associativity) : async_scope.
Notation "m ;; k" := (bind m (fun _ => k))
  (at level 61, right associativity) : async_scope.

(** A setter call. *)
Definition set (f : AppState -> AppState) : Async unit := SetState f (Ret tt).

(** The environment of a run: the remote service answering each request
    ([None]: the call itself fails) and the successive readings of the
    clock. *)
Record World : Type := mkWorld {
  fetch : Request -> option Response;
  clock : nat -> Z
}.

Inductive Settled (A : Type) : Type :=
| Resolved (a : A)
| Rejected (e : string)
| Untyped.
Arguments Resolved {A} a.
Arguments Rejected {A} e.
Arguments Untyped {A}.

Record Run (A : Type) : Type := mkRun {
  final : AppState;
  settled : Settled A;
  sent : list Request;
  reads : nat
}.
Arguments mkRun {A}.
Arguments final {A}.
Arguments settled {A}.
Arguments sent {A}.
Arguments reads {A}.

(** Runs [m] from state [st], the clock having been read [n] times. *)
Fixpoint run {A : Type} (w : World) (m : Async A) (n : nat) (st : AppState) : Run A :=
  match m with
  | Ret a => mkRun st (Resolved a) [] n
  | Throw e => mkRun st (Rejected e) [] n
  | IllTyped => mkRun st Untyped [] n
  | Fetch rq k =>
      let r := run w (k (fetch w rq)) n st in
      mkRun (final r) (settled r) (rq :: sent r) (reads r)
  | Now k => run w (k (clock w n)) (S n) st
  | SetState f k => run w k n (f st)
  end.

(** ** Array.prototype.sort *)

(** The sign test SortCompare applies to the comparator's result, a [NaN]
    counting as +0: is [x] to stay at or before [y]? *)
Definition notAfter (v : number) : bool :=
  match v with
  | NaN => true
  | Num z => z <=? 0
  end.

Fixpoint sort_insert {A : Type} (cmp : A -> A -> number) (x : A) (l : list A) : list A :=
  match l with
  | [] => [x]
  | y :: l' => if notAfter (cmp x y) then x :: l else y :: sort_insert cmp x l'
  end.

(** [[...l].sort(cmp)].  The language fixes the result for a consistent
    comparator (sorted, and stable); a stable insertion sort computes it. *)
Definition Array_sort {A : Type} (cmp : A -> A -> number) (l : list A) : list A :=
  fold_right (sort_insert cmp) [] l.

(** [a - b] on numbers.  The operands are time values, whose difference
    keeps its sign and its being zero when rounded to a double. *)
Definition minus (a b : number) : number :=
  match a, b with
  | Num x, Num y => Num (x - y)
  | _, _ => NaN
  end.

(** Reads a nullable id the way [if (!x) return;] does: [null] and the
    empty string are falsy. *)
Definition pendingId (x : option string) : option string :=
  match x with
  | Some s => if (s =? "")%string then None else Some s
  | None => None
  end.

(** ** Sample data of the examples *)

(** Three requests of the same day; the first was made at 08:00 local time
    on 5 March 2024 in the zone five hours behind UTC. *)
Definition request1 : ServiceRequest :=
  mkServiceRequest "REQ-1" "Ana Ito" "S-100" "B12" "QF400"
    (mkDate (Num 1709643600000)) None Pending Connect "09:15" None None.

Definition request2 : ServiceRequest :=
  mkServiceRequest "REQ-2" "Bo Lee" "S-200" "B12" "UA90"
    (mkDate (Num 1709630000000)) (Some (mkDate (Num 1709640000000)))
    Completed Disconnect "10:00" (Some "Cy Ng") (Some "D-7").

Definition request3 : ServiceRequest :=
  mkServiceRequest "REQ-3" "Di Roy" "S-300" "C3" "LH12"
    (mkDate (Num 1709647200000)) None Pending Replace "11:30" None None.

(** A state with the three requests and "REQ-1" pending in every flow. *)
Definition sampleState : AppState :=
  mkAppState [request1; request2; request3] false None ALL ALL "" ""
    (Some "REQ-1") (Some "REQ-1") (Some "REQ-1") [].

(** The same list viewed through type = Connect and search = "B12", and
    through a search term of two spaces. *)
Definition searchingState : AppState :=
  mkAppState [request1; request2; request3] false None ALL (Only Connect) "" "B12"
    None None None [].

Definition blankSearchState : AppState :=
  mkAppState [request1; request2; request3] false None ALL (Only Connect) "" "  "
    None None None [].

Definition newRequest1 : NewRequest.t :=
  NewRequest.mk "Eli Wu" "S-400" "D4" "BA7" Connect "12:45".

(** Records the service may answer with. *)
Definition createdRecord : Wire.t :=
  Wire.mk "REQ-4" "Eli Wu" "S-400" "D4" "BA7"
    (JsString "2024-03-05T14:00:00.000Z") JsNull Pending Connect "12:45" None None.

Definition completedWithoutTime : Wire.t :=
  Wire.mk "REQ-1" "Ana Ito" "S-100" "B12" "QF400"
    (JsString "2024-03-05T13:00:00.000Z") JsNull Completed Connect "09:15" None None.

Definition undatedRecord : Wire.t :=
  Wire.mk "REQ-4" "Eli Wu" "S-400" "D4" "BA7"
    (JsString "not a date") (JsString "") Pending Connect "12:45" None None.

(** Worlds: a service that answers every call with one JSON record, one
    that answers with status 500, and one that cannot be reached while the
    clock stays within one millisecond. *)
Definition answering (rec : Wire.t) : World :=
  mkWorld
    (fun _ => Some (mkResponse true 200 "OK" "" (Some "application/json")
                      (Some (JsonRecord rec))))
    (fun n => 1709650000000 + Z.of_nat n).

Definition failingService : World :=
  mkWorld
    (fun _ => Some (mkResponse false 500 "Internal Server Error" "database unavailable"
                      (Some "text/plain") None))
    (fun n => 1709650000000 + Z.of_nat n).

Definition unreachableSameMillisecond : World :=
  mkWorld (fun _ => None) (fun _ => 1709650000000).

(** ** App: role, session and theme *)

Inductive Role : Type := REQUEST | DELIVERY.

Inductive Theme : Type := dark | light.

(** The string a theme is, as stored and compared. *)
Definition themeName (t : Theme) : string :=
  match t with
  | dark => "dark"
  | light => "light"
  end.

(** The initialiser of the theme cell: [localStorage] is [None] where there
    is no window or no storage, else its [getItem]. *)
Definition initialTheme (localStorage : option (string -> option string)) : Theme :=
  match localStorage with
  | Some getItem =>
      match getItem "theme" with
      | Some storedTheme =>
          if (storedTheme =? "dark")%string then dark
          else if (storedTheme =? "light")%string then light
          else dark
      | None => dark
      end
  | None => dark
  end.

Definition toggleTheme (prev : Theme) : Theme :=
  match prev with
  | light => dark
  | dark => light
  end.

(** What the theme effect writes to: whether the class list of the document
    element holds 'dark', and the items of localStorage. *)
Record Host : Type := mkHost {
  darkClass : bool;
  items : string -> option string
}.

Definition setItem (key value : string) (getItem : string -> option string)
  : string -> option string :=
  fun k => if (k =? key)%string then Some value else getItem k.

(** The effect run after every change of the theme. *)
Definition themeEffect (theme : Theme) (h : Host) : Host :=
  mkHost (match theme with dark => true | light => false end)
    (setItem "theme" (themeName theme) (items h)).

(** The state cells of [App]. *)
Record Shell : Type := mkShell {
  role : option Role;
  isAuthenticated : bool;
  theme : Theme
}.

Definition handleRoleSelect (selectedRole : Role) (s : Shell) : Shell :=
  mkShell (Some selectedRole) (isAuthenticated s) (theme s).

Definition handleLoginSuccess (s : Shell) : Shell :=
  mkShell (role s) true (theme s).

Definition handleLogout (s : Shell) : Shell :=
  mkShell None false (theme s).

(** What [App] returns. *)
Inductive Page : Type :=
| RoleSelectionPage
| LoginPage (role : Role)
| MainApplication (role : Role) (theme : Theme).

Definition App (s : Shell) : Page :=
  match role s with
  | None => RoleSelectionPage
  | Some r =>
      if negb (isAuthenticated s) then LoginPage r
      else MainApplication r (theme s)
  end.

(** The callbacks [App] hands to the page it renders. *)
Inductive ShellEvent : Type :=
| onSelectRole (selectedRole : Role)
| onLoginSuccess
| onLogout
| onToggleTheme.

Definition handsOut (p : Page) (e : ShellEvent) : bool :=
  match p, e with
  | RoleSelectionPage, onSelectRole _ => true
  | LoginPage _, onLoginSuccess => true
  | MainApplication _ _, onLogout => true
  | MainApplication _ _, onToggleTheme => true
  | _, _ => false
  end.

Definition shellHandler (e : ShellEvent) (s : Shell) : Shell :=
  match e with
  | onSelectRole r => handleRoleSelect r s
  | onLoginSuccess => handleLoginSuccess s
  | onLogout => handleLogout s
  | onToggleTheme => mkShell (role s) (isAuthenticated s) (toggleTheme (theme s))
  end.

(** Plays the events in order, each one only if the page on screen hands
    out its callback. *)
Fixpoint playShell (events : list ShellEvent) (s : Shell) : Shell :=
  match events with
  | [] => s
  | e :: rest =>
      playShell rest (if handsOut (App s) e then shellHandler e s else s)
  end.

Definition initialShell (localStorage : option (string -> option string)) : Shell :=
  mkShell None false (initialTheme localStorage).

(** ** The program: api.ts and MainApplication *)

Section Engine.

(** The engine's [Date.parse] and the time zone of the host. *)
Variable parse : string -> number.
Variable tza : Z -> bool -> Z.

Set Default Proof Using "Type".

Local Open Scope async_scope.

(** *** api.ts *)

Definition API_BASE_PATH : string := "/api".

Definition processResponse (response : Response) : Async ResponseData :=
  if negb (ok response) then
    Throw ("API Error: " ++ Str.decimal (statusCode response) ++ " "
           ++ statusText response ++ " - " ++ text response)
  else
    match content_type response with
    | Some contentType =>
        if Str.includes contentType "application/json" then
          match json response with
          | Some j => Ret (Data j)
          | None => Throw "SyntaxError: Unexpected token in JSON"
          end
        else Ret EmptyObject
    | None => Ret EmptyObject
    end.

Definition transformRequest (request : Wire.t) : ServiceRequest :=
  {| id := Wire.id request;
     staffName := Wire.staff_name request;
     staffNumber := Wire.staff_number request;
     aircraftBay := Wire.aircraft_bay request;
     flightNumber := Wire.flight_number request;
     requestTime := Date_of parse (Wire.request_time request);
     completionTime :=
       if truthy (Wire.completion_time request)
       then Some (Date_of parse (Wire.completion_time request))
       else None;
     status := Wire.status request;
     serviceType := Wire.service_type request;
     aircraftEta := Wire.aircraft_eta request;
     deliveryStaffName := Wire.delivery_staff_name request;
     deliveryStaffNumber := Wire.delivery_staff_number request |}.

(** [await fetch(url, init)]. *)
Definition await_fetch (rq : Request) : Async Response :=
  Fetch rq (fun r =>
    match r with
    | Some response => Ret response
    | None => Throw "TypeError: Failed to fetch"
    end).

Definition getRequests : Async (list ServiceRequest) :=
  response <- await_fetch (mkRequest (API_BASE_PATH ++ "/requests") GET NoBody) ;;
  data <- processResponse response ;;
  match data with
  | Data (JsonArray ws) => Ret (map transformRequest ws)
  | _ => Throw "TypeError: data.map is not a function"
  end.

Definition createRequest (requestData : NewRequest.t) : Async ServiceRequest :=
  response <- await_fetch
    (mkRequest (API_BASE_PATH ++ "/requests") POST (CreateBody requestData)) ;;
  newRequest <- processResponse response ;;
  match newRequest with
  | Data (JsonRecord w) => Ret (transformRequest w)
  | _ => IllTyped
  end.

Definition updateRequest (id : string) (updates : Updates.t) : Async ServiceRequest :=
  response <- await_fetch
    (mkRequest (API_BASE_PATH ++ "/requests/" ++ id) PATCH (UpdateBody updates)) ;;
  updatedRequest <- processResponse response ;;
  match updatedRequest with
  | Data (JsonRecord w) => Ret (transformRequest w)
  | _ => IllTyped
  end.

Definition deleteRequest (id : string) : Async unit :=
  response <- await_fetch
    (mkRequest (API_BASE_PATH ++ "/requests/" ++ id) DELETE NoBody) ;;
  _ <- processResponse response ;;
  Ret tt.

(** *** MainApplication: the store and the workflows

    A handler closes over the state of the render it was created in
    ([cl]); its setter calls act on the state current when they run. *)

Definition addNotification (message : string) (type : Notif.kind) : Async unit :=
  Now (fun now =>
    let id := "notif-" ++ Str.decimal now in
    set (setNotifications (fun current => (current ++ [Notif.mk id message type])%list))).

Definition removeNotification (id : string) : Async unit :=
  set (setNotifications
         (fun current => filter (fun n => negb (Notif.id n =? id)%string) current)).

Definition loadRequests : Async unit :=
  bind
    (try_catch
       (set (setIsLoading true) ;;
        set (setError None) ;;
        fetchedRequests <- getRequests ;;
        set (setRequests (fun _ => fetchedRequests)))
       (fun err =>
          set (setError (Some "Failed to load service requests. Please try again later.")) ;;
          addNotification "Failed to load service requests from the server." Notif.error))
    (fun _ => set (setIsLoading false)).

Definition addRequest (request : NewRequest.t) : Async unit :=
  try_catch
    (newRequest <- createRequest request ;;
     set (setRequests (fun prevRequests => newRequest :: prevRequests)) ;;
     addNotification "Service request created successfully." Notif.success)
    (fun err => addNotification "Failed to create service request." Notif.error).

Definition handleInitiateComplete (id : string) : Async unit :=
  set (setConfirmingComplete (Some id)).

(** The update object of the non-delivery completion. *)
Definition completeUpdates (now : Date) : Updates.t :=
  Updates.mk None None None None None (Some now) (Some Completed) None None None None.

Definition handleConfirmComplete (cl : AppState) : Async unit :=
  match pendingId (confirmingComplete cl) with
  | None => Ret tt
  | Some confirming =>
      try_catch
        (Now (fun now =>
           let updates := completeUpdates (Date_now now) in
           updatedRequest <- updateRequest confirming updates ;;
           set (setRequests (fun prevRequests =>
                  map (fun req => if (id req =? confirming)%string
                                  then updatedRequest else req) prevRequests)) ;;
           set (setConfirmingComplete None) ;;
           addNotification "Request marked as complete." Notif.info))
        (fun err => addNotification "Failed to mark request as complete." Notif.error)
  end.

Definition handleCancelComplete : Async unit :=
  set (setConfirmingComplete None).

(** [completionDate] of the delivery workflow: a copy of the request
    time with its local hours and minutes replaced.  A missing second
    part is [undefined], which [setHours] reads as [NaN]. *)
Definition completionDate (requestTime : Date) (completionTimeStr : string) : Date :=
  let parts := map Number_ (Str.split ":" completionTimeStr) in
  let hours := nth 0 parts NaN in
  let minutes := nth 1 parts NaN in
  setHours tza (Date_copy requestTime) hours minutes (Num 0) (Num 0).

Definition deliveryUpdates (completion : Date) (deliveryStaffName deliveryStaffNumber : string)
  : Updates.t :=
  Updates.mk None None None None None (Some completion) (Some Completed) None None
    (Some deliveryStaffName) (Some deliveryStaffNumber).

Definition handleConfirmCompleteDelivery (cl : AppState)
  (deliveryStaffName deliveryStaffNumber completionTimeStr : string) : Async unit :=
  match pendingId (completingDelivery cl) with
  | None => Ret tt
  | Some completing =>
      try_catch
        (match find (fun r => (id r =? completing)%string) (requests cl) with
         | None => Throw ("Request with ID " ++ completing ++ " not found in state.")
         | Some reqToUpdate =>
             let updates :=
               deliveryUpdates (completionDate (requestTime reqToUpdate) completionTimeStr)
                 deliveryStaffName deliveryStaffNumber in
             updatedRequest <- updateRequest completing updates ;;
             set (setRequests (fun prevRequests =>
                    map (fun req => if (id req =? completing)%string
                                    then updatedRequest else req) prevRequests)) ;;
             set (setCompletingDelivery None) ;;
             addNotification "Task completed successfully." Notif.success
         end)
        (fun err => addNotification "Failed to complete task." Notif.error)
  end.

Definition handleInitiateDelete (id : string) : Async unit :=
  set (setConfirmingDelete (Some id)).

Definition handleConfirmDelete (cl : AppState) : Async unit :=
  match pendingId (confirmingDelete cl) with
  | None => Ret tt
  | Some confirming =>
      try_catch
        (deleteRequest confirming ;;
         set (setRequests (fun prevRequests =>
                filter (fun req => negb (id req =? confirming)%string) prevRequests)) ;;
         set (setConfirmingDelete None) ;;
         addNotification "Request has been deleted." Notif.info)
        (fun err => addNotification "Failed to delete request." Notif.error)
  end.

Definition handleCancelDelete : Async unit :=
  set (setConfirmingDelete None).

(** *** MainApplication: the projected views *)

Definition compareRequests (a b : ServiceRequest) : number :=
  match status a, status b with
  | Pending, Completed => Num (-1)
  | Completed, Pending => Num 1
  | _, _ => minus (getTime (requestTime b)) (getTime (requestTime a))
  end.

Definition sortedRequests (requests : list ServiceRequest) : list ServiceRequest :=
  Array_sort compareRequests requests.

Definition pendingCount (s : AppState) : nat :=
  List.length (filter (fun req => RequestStatus_eqb (status req) Pending) (requests s)).

Definition statusPasses (f : Filter RequestStatus) (req : ServiceRequest) : bool :=
  match f with
  | ALL => true
  | Only v => RequestStatus_eqb (status req) v
  end.

Definition serviceTypePasses (f : Filter ServiceType) (req : ServiceRequest) : bool :=
  match f with
  | ALL => true
  | Only v => ServiceType_eqb (serviceType req) v
  end.

Definition datePasses (dateFilter : string) (req : ServiceRequest) : bool :=
  if (dateFilter =? "")%string then true
  else (toLocaleDateString_enCA tza (requestTime req) =? dateFilter)%string.

Definition searchPasses (searchTerm : string) (req : ServiceRequest) : bool :=
  if (Str.trim searchTerm =? "")%string then true
  else
    let lowercasedSearchTerm := Str.toLowerCase searchTerm in
    Str.includes (Str.toLowerCase (flightNumber req)) lowercasedSearchTerm
    || Str.includes (Str.toLowerCase (aircraftBay req)) lowercasedSearchTerm
    || Str.includes (Str.toLowerCase (staffName req)) lowercasedSearchTerm.

Definition filteredRequests (s : AppState) : list ServiceRequest :=
  filter (searchPasses (searchTerm s))
    (filter (datePasses (dateFilter s))
       (filter (serviceTypePasses (serviceTypeFilter s))
          (filter (statusPasses (statusFilter s))
             (sortedRequests (requests s))))).

Definition filteredDeliveryRequests (s : AppState) : list ServiceRequest :=
  filter (statusPasses (statusFilter s)) (sortedRequests (requests s)).


(** *** Vocabulary of the properties *)




(** The value of a time input: two digits, a colon, two digits. *)
Definition hhmm (h m : Z) : string := Str.pad2 h ++ ":" ++ Str.pad2 m.

(** Does the time string of [h] and [m] split and convert to them? *)
Definition parsesAs (h m : Z) : bool :=
  match map Number_ (Str.split ":" (hhmm h m)) with
  | [Num a; Num b] => (a =? h) && (b =? m)
  | _ => false
  end.

(** The order of the sorted view: [a] may stand before [b]. *)
Definition inOrder (a b : ServiceRequest) : Prop :=
  (status a = Pending /\ status b = Completed)
  \/ (status a = status b
      /\ exists ta tb, getTime (requestTime a) = Num ta
                       /\ getTime (requestTime b) = Num tb
                       /\ tb <= ta).

(** [t] occurs in [s]. *)
Definition occurs (t s : string) : Prop :=
  exists pre post, s = (pre ++ t ++ post)%string.

(** Every character of [s] is white space. *)
Definition blank (s : string) : Prop :=
  forall c, In c (list_ascii_of_string s) -> Str.isWhiteSpace c = true.

(** *** MainApplication: mounting, the panel and the callbacks *)

(** The initial values of the state cells for a role. *)
Definition initialState (role : Role) : AppState :=
  mkAppState [] true None
    (match role with DELIVERY => Only Pending | REQUEST => ALL end)
    ALL "" "" None None None [].

(** What [RequestListPanel] renders. *)
Inductive Panel : Type :=
| Spinner
| ErrorPanel (error : string)
| RequestList (requests : list ServiceRequest) (isDeliveryView : bool).

Definition isDelivery (role : Role) : bool :=
  match role with
  | DELIVERY => true
  | REQUEST => false
  end.

Definition RequestListPanel (role : Role) (s : AppState)
  (requestsToShow : list ServiceRequest) : Panel :=
  if isLoading s then Spinner
  else match pendingId (error s) with
       | Some error => ErrorPanel error
       | None => RequestList requestsToShow (isDelivery role)
       end.

(** The panel of the page: the requester's filtered view or the delivery
    view. *)
Definition mainPanel (role : Role) (s : AppState) : Panel :=
  RequestListPanel role s
    (match role with
     | REQUEST => filteredRequests s
     | DELIVERY => filteredDeliveryRequests s
     end).

(** The [onComplete] property of the list. *)
Definition onComplete (role : Role) (id : string) : Async unit :=
  match role with
  | DELIVERY => set (setCompletingDelivery (Some id))
  | REQUEST => handleInitiateComplete id
  end.

Definition setStatusFilter (v : Filter RequestStatus) (s : AppState) : AppState :=
  mkAppState (requests s) (isLoading s) (error s) v
    (serviceTypeFilter s) (dateFilter s) (searchTerm s) (confirmingComplete s)
    (confirmingDelete s) (completingDelivery s) (notifications s).

Definition setServiceTypeFilter (v : Filter ServiceType) (s : AppState) : AppState :=
  mkAppState (requests s) (isLoading s) (error s) (statusFilter s)
    v (dateFilter s) (searchTerm s) (confirmingComplete s)
    (confirmingDelete s) (completingDelivery s) (notifications s).

Definition setDateFilter (v : string) (s : AppState) : AppState :=
  mkAppState (requests s) (isLoading s) (error s) (statusFilter s)
    (serviceTypeFilter s) v (searchTerm s) (confirmingComplete s)
    (confirmingDelete s) (completingDelivery s) (notifications s).

Definition setSearchTerm (v : string) (s : AppState) : AppState :=
  mkAppState (requests s) (isLoading s) (error s) (statusFilter s)
    (serviceTypeFilter s) (dateFilter s) v (confirmingComplete s)
    (confirmingDelete s) (completingDelivery s) (notifications s).

(** The callbacks the rendered page wires to its controls. *)
Inductive UiEvent : Type :=
| SubmitRequest (request : NewRequest.t)
| ClickComplete (id : string)
| ClickDelete (id : string)
| ConfirmComplete
| CancelComplete
| ConfirmDelivery (deliveryStaffName deliveryStaffNumber completionTimeStr : string)
| CancelDelivery
| ConfirmDelete
| CancelDelete
| Dismiss (id : string)
| PickStatus (v : Filter RequestStatus)
| PickServiceType (v : Filter ServiceType)
| PickDate (v : string)
| TypeSearch (v : string).

Definition isSome {T : Type} (x : option T) : bool :=
  match x with
  | Some _ => true
  | None => false
  end.

(** Is the control of the event on the page?  The form and the type, date
    and search controls are the requester's; the list is there when the
    panel shows it; each dialog is there while its id is pending; a
    notification can be dismissed while it is shown. *)
Definition wired (role : Role) (s : AppState) (e : UiEvent) : bool :=
  let listShown := negb (isLoading s) && negb (isSome (pendingId (error s))) in
  match e with
  | SubmitRequest _ | PickServiceType _ | PickDate _ | TypeSearch _ =>
      negb (isDelivery role)
  | ClickComplete _ | ClickDelete _ => listShown
  | ConfirmComplete | CancelComplete => isSome (pendingId (confirmingComplete s))
  | ConfirmDelivery _ _ _ | CancelDelivery => isSome (pendingId (completingDelivery s))
  | ConfirmDelete | CancelDelete => isSome (pendingId (confirmingDelete s))
  | Dismiss id => existsb (fun n => (Notif.id n =? id)%string) (notifications s)
  | PickStatus _ => true
  end.

(** The handler behind each control, created in the render of state [cl]. *)
Definition handler (role : Role) (cl : AppState) (e : UiEvent) : Async unit :=
  match e with
  | SubmitRequest request => addRequest request
  | ClickComplete id => onComplete role id
  | ClickDelete id => handleInitiateDelete id
  | ConfirmComplete => handleConfirmComplete cl
  | CancelComplete => handleCancelComplete
  | ConfirmDelivery name number time => handleConfirmCompleteDelivery cl name number time
  | CancelDelivery => set (setCompletingDelivery None)
  | ConfirmDelete => handleConfirmDelete cl
  | CancelDelete => handleCancelDelete
  | Dismiss id => removeNotification id
  | PickStatus v => set (setStatusFilter v)
  | PickServiceType v => set (setServiceTypeFilter v)
  | PickDate v => set (setDateFilter v)
  | TypeSearch v => set (setSearchTerm v)
  end.

(** A session of one user: the component mounts and loads, then the events
    happen one after the other, each handler finishing before the next
    event, each in its own world (the service's answer of the moment, the
    clock).  An event whose control is not on the page does not happen. *)
Fixpoint play (role : Role) (events : list (World * UiEvent)) (n : nat) (s : AppState)
  : AppState :=
  match events with
  | [] => s
  | (w, e) :: rest =>
      if wired role s e then
        let r := run w (handler role s e) n s in
        play role rest (reads r) (final r)
      else play role rest n s
  end.

Definition session (role : Role) (mount : World) (events : list (World * UiEvent))
  : AppState :=
  let r := run mount loadRequests 0%nat (initialState role) in
  play role events (reads r) (final r).

(** A state with one more notification, stamped with the clock reading
    [n] of [w]. *)
Definition notify (w : World) (n : nat) (message : string) (type : Notif.kind)
  (s : AppState) : AppState :=
  setNotifications
    (fun current =>
       (current ++ [Notif.mk ("notif-" ++ Str.decimal (clock w n)) message type])%list)
    s.

(** The cells no mutation of the store writes: the load flags and the
    filters. *)
Definition sameControls (a b : AppState) : Prop :=
  isLoading a = isLoading b
  /\ error a = error b
  /\ statusFilter a = statusFilter b
  /\ serviceTypeFilter a = serviceTypeFilter b
  /\ dateFilter a = dateFilter b
  /\ searchTerm a = searchTerm b.

(** What holds of the state throughout a session in a role. *)
Definition inSession (role : Role) (s : AppState) : Prop :=
  isLoading s = false
  /\ (error s = None
      \/ error s = Some "Failed to load service requests. Please try again later.")
  /\ match role with
     | REQUEST => completingDelivery s = None
     | DELIVERY =>
         confirmingComplete s = None
         /\ serviceTypeFilter s = ALL
         /\ dateFilter s = ""
         /\ searchTerm s = ""
     end.

(** Does [c] occur in [s]? *)
Definition hasChar (c : ascii) (s : string) : bool :=
  existsb (Ascii.eqb c) (list_ascii_of_string s).

(** *** MainApplication: the CSV export *)

(** [date.toLocaleString('default', dateTimeFormatOptions)], which depends
    on the locale of the host. *)
Variable toLocaleString : Date -> string.

Definition quote : string := String (ascii_of_N 34) EmptyString.

Definition lineFeed : ascii := ascii_of_N 10.

(** [parts.join(sep)]. *)
Fixpoint join (sep : string) (parts : list string) : string :=
  match parts with
  | [] => EmptyString
  | [p] => p
  | p :: rest => p ++ sep ++ join sep rest
  end.

Definition formatDateTimeForCSV (date : option Date) : string :=
  match date with
  | None => "N/A"
  | Some d => quote ++ toLocaleString d ++ quote
  end.

Definition RequestStatus_value (s : RequestStatus) : string :=
  match s with
  | Pending => "PENDING"
  | Completed => "COMPLETED"
  end.

Definition ServiceType_value (t : ServiceType) : string :=
  match t with
  | Connect => "CONNECT"
  | Disconnect => "DISCONNECT"
  | Replace => "REPLACE"
  end.

(** [x || 'N/A']. *)
Definition orNA (x : option string) : string :=
  match pendingId x with
  | Some s => s
  | None => "N/A"
  end.

Definition csvHeaders : list string :=
  ["Request ID"; "Status"; "Service Type"; "Requester Name"; "Requester Number";
   "Aircraft Bay"; "Flight Number"; "ETA"; "Request Time"; "Completion Time";
   "Delivery Staff Name"; "Delivery Staff Number"].

Definition csvCells (req : ServiceRequest) : list string :=
  [id req; RequestStatus_value (status req); ServiceType_value (serviceType req);
   staffName req; staffNumber req; aircraftBay req; flightNumber req;
   aircraftEta req; formatDateTimeForCSV (Some (requestTime req));
   formatDateTimeForCSV (completionTime req);
   orNA (deliveryStaffName req); orNA (deliveryStaffNumber req)].

Definition csvRows (requests : list ServiceRequest) : list string :=
  map (fun req => join "," (csvCells req)) requests.

(** [csvContent] of [downloadAsExcel]. *)
Definition csvContent (requests : list ServiceRequest) : string :=
  join (String lineFeed EmptyString) (join "," csvHeaders :: csvRows requests).

(** *** More sample data *)

(** The sample state after a failed load. *)
Definition failedLoadState : AppState :=
  setIsLoading false
    (setError (Some "Failed to load service requests. Please try again later.")
       sampleState).

(** The sample state with a delivery completion pending for an id that is
    not in the list. *)
Definition missingTargetState : AppState :=
  setCompletingDelivery (Some "REQ-9") sampleState.

(** The sample state with the delete of "REQ-4" pending. *)
Definition deletingCreatedState : AppState :=
  setConfirmingDelete (Some "REQ-4") sampleState.

(** The sample state with an entity whose request time is an Invalid
    Date. *)
Definition undatedRequest : ServiceRequest :=
  mkServiceRequest "REQ-1" "Ana Ito" "S-100" "B12" "QF400"
    InvalidDate None Pending Connect "09:15" None None.

Definition undatedState : AppState :=
  setRequests (fun _ => [undatedRequest]) sampleState.

(** ** Properties *)

Arguments Str.decimal : simpl never.
Arguments Str.includes : simpl never.
Arguments String.eqb : simpl never.

(** Case analysis on the answer of the service to the one call of a
    handler, following [await_fetch] and [processResponse]. *)
Ltac answer :=
  repeat (simpl;
    match goal with
    | |- context [fetch ?w ?rq] =>
        destruct (fetch w rq) as [?response|] eqn:?
    | |- context [ok ?r] => destruct (ok r) eqn:?
    | |- context [content_type ?r] => destruct (content_type r) eqn:?
    | |- context [Str.includes ?a ?b] => destruct (Str.includes a b) eqn:?
    | |- context [json ?r] => destruct (json r) as [[?w|?ws]|] eqn:?
    end);
  simpl.

(** *** The calendar *)

(** [YearFromTime] is the year the language defines: the one whose first
    day is the latest not after the day of [t]. *)
Lemma YearFromTime_bounds (t : Z) :
  Time.DayFromYear (Time.YearFromTime t) <= Time.Day t
  < Time.DayFromYear (Time.YearFromTime t + 1).
Proof.
  clear tza.
  unfold Time.YearFromTime.
  set (d := Time.Day t). set (y0 := 1970 + d * 400 / 146097).
  assert (Hlow : Time.DayFromYear (y0 - 1) <= d)
    by (unfold Time.DayFromYear, y0; Z.div_mod_to_equations; lia).
  assert (Hhigh : d < Time.DayFromYear (y0 + 2))
    by (unfold Time.DayFromYear, y0; Z.div_mod_to_equations; lia).
  clearbody y0. clearbody d. cbn [Time.adjustYear].
  destruct (Z.ltb_spec d (Time.DayFromYear y0)) as [H1 | H1].
  - destruct (Z.ltb_spec d (Time.DayFromYear (y0 - 1))) as [H2 | H2]; [lia|].
    replace (y0 - 1 + 1) with y0 by lia.
    destruct (Z.leb_spec (Time.DayFromYear y0) d) as [H3 | H3]; [lia|].
    replace (y0 - 1 + 1) with y0 by lia. lia.
  - destruct (Z.leb_spec (Time.DayFromYear (y0 + 1)) d) as [H2 | H2]; [|lia].
    destruct (Z.ltb_spec d (Time.DayFromYear (y0 + 1))) as [H3 | H3]; [lia|].
    replace (y0 + 1 + 1) with (y0 + 2) by lia.
    destruct (Z.leb_spec (Time.DayFromYear (y0 + 2)) d) as [H4 | H4]; [lia|].
    replace (y0 + 1 + 1) with (y0 + 2) by lia. lia.
Qed.

Lemma DayFromYear_succ (y : Z) :
  Time.DayFromYear (y + 1) = Time.DayFromYear y + Time.DaysInYear y.
Proof.
  clear tza.
  unfold Time.DayFromYear, Time.DaysInYear, Time.isLeap.
  destruct (Z.eqb_spec (y mod 4) 0) as [H4 | H4];
    destruct (Z.eqb_spec (y mod 100) 0) as [H100 | H100];
    destruct (Z.eqb_spec (y mod 400) 0) as [H400 | H400];
    cbn [andb orb negb]; Z.div_mod_to_equations; lia.
Qed.

(** Year, month and day of month of a time are a calendar date, and the
    date of the day the time falls on. *)
Lemma calendar_roundtrip (t : Z) :
  Time.MakeDay (Time.YearFromTime t) (Time.MonthFromTime t) (Time.DateFromTime t)
  = Time.Day t
  /\ 0 <= Time.MonthFromTime t <= 11
  /\ 1 <= Time.DateFromTime t <= 31.
Proof.
  clear tza.
  pose proof (YearFromTime_bounds t) as Hb.
  rewrite DayFromYear_succ in Hb.
  unfold Time.MakeDay, Time.DateFromTime, Time.MonthFromTime, Time.DayWithinYear,
    Time.InLeapYear, Time.DaysInYear in *.
  set (y := Time.YearFromTime t) in *. set (d := Time.Day t) in *.
  clearbody d.
  destruct (Time.isLeap y) eqn:El;
    repeat match goal with
           | |- context [?a <? ?b] => destruct (Z.ltb_spec a b)
           end;
    try lia;
    repeat match goal with
           | |- context [?a / 12] => change (a / 12) with 0
           | |- context [?a mod 12] => change (a mod 12) with a
           end;
    rewrite ?Z.add_0_r, ?El; cbn [Time.daysBeforeMonth]; lia.
Qed.

(** *** The request store *)


Lemma filter_other_ids (target : string) (l : list ServiceRequest) (req : ServiceRequest) :
  In req (filter (fun r => negb (id r =? target)%string) l)
  <-> In req l /\ id req <> target.
Proof.
  rewrite filter_In, negb_true_iff, String.eqb_neq. reflexivity.
Qed.

Lemma filter_absent_id (target : string) (l : list ServiceRequest) :
  ~ In target (map id l) ->
  filter (fun r => negb (id r =? target)%string) l = l.
Proof.
  induction l as [|x l IH]; simpl; intros Hnotin; [reflexivity|].
  destruct (String.eqb_spec (id x) target) as [Heq | Hne]; simpl.
  - exfalso. apply Hnotin. left. exact Heq.
  - rewrite IH; [reflexivity|]. intros Hin. apply Hnotin. right. exact Hin.
Qed.

Lemma filter_unique_id (target : string) (l : list ServiceRequest) :
  NoDup (map id l) ->
  (exists e, In e l /\ id e = target) ->
  S (List.length (filter (fun r => negb (id r =? target)%string) l)) = List.length l.
Proof.
  induction l as [|x l IH]; simpl; intros Hnd (e & He & Hid).
  - destruct He.
  - inversion Hnd as [|? ? Hnotin Hnd']; subst.
    destruct (String.eqb_spec (id x) (id e)) as [Heq | Hne]; simpl.
    + rewrite filter_absent_id; [reflexivity|]. rewrite <- Heq. exact Hnotin.
    + f_equal. apply IH; [exact Hnd'|].
      destruct He as [-> | He]; [contradiction|]. eauto.
Qed.

(** C6. A confirmed delete whose remote call rejects leaves the local
    list exactly as it was (the targeted entity still in it, same length,
    same elements) and enqueues exactly one error notification; one whose
    remote call resolves removes what has the targeted id (exactly one
    entity when the ids of the list are distinct and the target is in it),
    keeps all others in their order, and enqueues one info notification. *)
Theorem handleConfirmDelete_outcome
  (w : World) (cl : AppState) (target : string) (n : nat) (st : AppState) :
  pendingId (confirmingDelete cl) = Some target ->
  let r := run w (handleConfirmDelete cl) n st in
  match settled (run w (deleteRequest target) n st) with
  | Rejected _ =>
      requests (final r) = requests st
      /\ notifications (final r) =
           (notifications st
            ++ [Notif.mk ("notif-" ++ Str.decimal (clock w n))
                  "Failed to delete request." Notif.error])%list
  | Resolved _ =>
      requests (final r) =
        filter (fun req => negb (id req =? target)%string) (requests st)
      /\ (forall req, In req (requests (final r))
                      <-> In req (requests st) /\ id req <> target)
      /\ (NoDup (map id (requests st)) ->
          (exists e, In e (requests st) /\ id e = target) ->
          S (List.length (requests (final r))) = List.length (requests st))
      /\ notifications (final r) =
           (notifications st
            ++ [Notif.mk ("notif-" ++ Str.decimal (clock w n))
                  "Request has been deleted." Notif.info])%list
  | Untyped => False
  end.
Proof.
  intros Hpending.
  unfold handleConfirmDelete, deleteRequest, await_fetch, processResponse,
    addNotification, API_BASE_PATH.
  rewrite Hpending.
  answer; auto;
    (split; [reflexivity
            | split; [intro req; apply filter_other_ids
                     | split; [apply filter_unique_id | reflexivity]]]).
Qed.

(** *** The confirmation workflows *)







(** *** The delivery completion time *)

Lemma hhmm_parses (h m : Z) :
  0 <= h < 24 -> 0 <= m < 60 ->
  map Number_ (Str.split ":" (hhmm h m)) = [Num h; Num m].
Proof.
  intros Hh Hm.
  assert (Hall : forallb (fun a => forallb (fun b => parsesAs (Z.of_nat a) (Z.of_nat b))
                                     (seq 0 60)) (seq 0 24) = true)
    by (vm_compute; reflexivity).
  rewrite forallb_forall in Hall.
  specialize (Hall (Z.to_nat h)). rewrite forallb_forall in Hall.
  specialize (Hall ltac:(apply in_seq; lia) (Z.to_nat m) ltac:(apply in_seq; lia)).
  rewrite !Z2Nat.id in Hall by lia.
  unfold parsesAs in Hall.
  destruct (map Number_ (Str.split ":" (hhmm h m))) as [|[|a] [|[|b] [|? ?]]];
    try discriminate.
  apply andb_true_iff in Hall. destruct Hall as [Ha Hb].
  apply Z.eqb_eq in Ha, Hb. subst. reflexivity.
Qed.



(** [completionDate] on a well-formed input, in a zone where the local
    time asked for exists and the result is in the range of dates. *)
Lemma completionDate_local (requestTime : Date) (t h m : Z) :
  getTime requestTime = Num t ->
  0 <= h < 24 -> 0 <= m < 60 ->
  let local := Time.Day (Time.LocalTime tza t) * Time.msPerDay
               + h * Time.msPerHour + m * Time.msPerMinute in
  tza (Time.UTC tza local) true = tza local false ->
  Z.abs (Time.UTC tza local) <= Time.maxTime ->
  completionDate requestTime (hhmm h m) = mkDate (Num (Time.UTC tza local))
  /\ Time.LocalTime tza (Time.UTC tza local) = local.
Proof.
  intros Ht Hh Hm local Hzone Hrange.
  unfold completionDate. rewrite hhmm_parses by assumption. simpl nth.
  unfold setHours, Date_copy. simpl getTime. rewrite Ht.
  cbv beta iota zeta delta [Time.MakeTime Time.MakeDate Time.TimeClip].
  replace (Time.Day (Time.LocalTime tza t) * Time.msPerDay
           + (h * Time.msPerHour + m * Time.msPerMinute + 0 * Time.msPerSecond + 0))
    with local by (unfold local; ring).
  apply Z.leb_le in Hrange. rewrite Hrange. split; [reflexivity|].
  unfold Time.LocalTime. rewrite Hzone. unfold Time.UTC. ring.
Qed.


(** The example of the specification, in any zone that has the local
    time 14:30 on that day. *)
Lemma completionDate_example (requestTime : Date) (t : Z) :
  getTime requestTime = Num t ->
  Time.LocalTime tza t = Time.civil 2024 3 5 8 0 0 ->
  let local := Time.civil 2024 3 5 14 30 0 in
  tza (Time.UTC tza local) true = tza local false ->
  Z.abs (Time.UTC tza local) <= Time.maxTime ->
  completionDate requestTime "14:30" = mkDate (Num (Time.UTC tza local))
  /\ Time.LocalTime tza (Time.UTC tza local) = local.
Proof.
  intros Ht Hreq local Hzone Hrange.
  assert (Hlocal : local = Time.Day (Time.LocalTime tza t) * Time.msPerDay
                           + 14 * Time.msPerHour + 30 * Time.msPerMinute)
    by (rewrite Hreq; vm_compute; reflexivity).
  rewrite Hlocal in *.
  change "14:30" with (hhmm 14 30).
  apply completionDate_local; auto; lia.
Qed.

(** *** The sorted view *)

Lemma sort_insert_perm {A : Type} (cmp : A -> A -> number) (x : A) (l : list A) :
  Permutation (sort_insert cmp x l) (x :: l).
Proof.
  induction l as [|y l IH]; simpl; [reflexivity|].
  destruct (notAfter (cmp x y)); [reflexivity|].
  rewrite IH. apply perm_swap.
Qed.

Lemma Array_sort_perm {A : Type} (cmp : A -> A -> number) (l : list A) :
  Permutation (Array_sort cmp l) l.
Proof.
  induction l as [|x l IH]; simpl; [reflexivity|].
  rewrite sort_insert_perm. constructor. exact IH.
Qed.

Lemma compareRequests_inOrder (a b : ServiceRequest) :
  validDate (requestTime a) -> validDate (requestTime b) ->
  (notAfter (compareRequests a b) = true <-> inOrder a b).
Proof.
  intros [ta Ha] [tb Hb]. unfold compareRequests, inOrder.
  rewrite Ha, Hb.
  destruct (status a), (status b); simpl; rewrite ?Z.leb_le; split; intros H;
    try (destruct H as [[H1 H2] | (H1 & x & y & Hx & Hy & H)]; try discriminate;
         injection Hx as <-; injection Hy as <-);
    try lia; try (left; split; reflexivity);
    right; (split; [reflexivity|]); exists ta, tb; repeat split; auto; lia.
Qed.

Lemma inOrder_total (a b : ServiceRequest) :
  validDate (requestTime a) -> validDate (requestTime b) ->
  inOrder a b \/ inOrder b a.
Proof.
  intros [ta Ha] [tb Hb]. unfold inOrder.
  destruct (status a), (status b); auto.
  - destruct (Z.le_ge_cases ta tb); [right | left]; right;
      (split; [reflexivity|]); eauto 6.
  - destruct (Z.le_ge_cases ta tb); [right | left]; right;
      (split; [reflexivity|]); eauto 6.
Qed.

Lemma inOrder_trans (a b c : ServiceRequest) :
  inOrder a b -> inOrder b c -> inOrder a c.
Proof.
  unfold inOrder.
  intros [[Ha Hb] | (Hab & ta & tb & Hta & Htb & Hle)]
         [[Hb' Hc] | (Hbc & tb' & tc & Htb' & Htc & Hle')];
    try congruence.
  - left. split; congruence.
  - left. split; congruence.
  - right. split; [congruence|]. exists ta, tc. repeat split; auto.
    rewrite Htb in Htb'. injection Htb' as <-. lia.
Qed.

Lemma sort_insert_sorted (x : ServiceRequest) (l : list ServiceRequest) :
  validDate (requestTime x) ->
  Forall (fun r => validDate (requestTime r)) l ->
  StronglySorted inOrder l ->
  StronglySorted inOrder (sort_insert compareRequests x l).
Proof.
  intros Hx Hl Hs. induction Hs as [|y l Hs IH Hy]; simpl.
  - constructor; constructor.
  - inversion Hl as [|? ? Hvy Hvl]; subst.
    destruct (notAfter (compareRequests x y)) eqn:Hc.
    + apply compareRequests_inOrder in Hc; auto.
      constructor; [constructor; assumption|].
      constructor; [assumption|].
      rewrite Forall_forall in Hy |- *. intros z Hz.
      apply inOrder_trans with y; auto.
    + assert (Hyx : inOrder y x).
      { destruct (inOrder_total x y Hx Hvy) as [H | H]; [|exact H].
        apply compareRequests_inOrder in H; auto. congruence. }
      constructor; [apply IH; assumption|].
      rewrite Forall_forall in Hy |- *. intros z Hz.
      apply (Permutation_in _ (sort_insert_perm compareRequests x l)) in Hz.
      destruct Hz as [<- | Hz]; auto.
Qed.

Lemma sortedRequests_sorted (l : list ServiceRequest) :
  Forall (fun r => validDate (requestTime r)) l ->
  StronglySorted inOrder (sortedRequests l).
Proof.
  unfold sortedRequests, Array_sort.
  induction 1 as [|x l Hx Hl IH]; simpl; [constructor|].
  apply sort_insert_sorted; auto.
  rewrite Forall_forall in Hl |- *. intros z Hz. apply Hl.
  apply (Permutation_in _ (Array_sort_perm compareRequests l)). exact Hz.
Qed.

Lemma not_inOrder_completed_pending (a b : ServiceRequest) :
  status a = Completed -> status b = Pending -> ~ inOrder a b.
Proof.
  intros Ha Hb [[H _] | [H _]]; congruence.
Qed.

Lemma inOrder_same_status_times (a b : ServiceRequest) (ta tb : Z) :
  status a = status b ->
  getTime (requestTime a) = Num ta -> getTime (requestTime b) = Num tb ->
  inOrder a b -> tb <= ta.
Proof.
  intros Hs Ha Hb [[H1 H2] | (_ & x & y & Hx & Hy & H)]; [congruence|].
  rewrite Ha in Hx. rewrite Hb in Hy.
  injection Hx as <-. injection Hy as <-. exact H.
Qed.

(** One completed and two pending entities of different age have a
    single arrangement in order. *)
Lemma three_in_order_unique (c p2 p3 : ServiceRequest) (t1 t2 t3 : Z)
  (s : list ServiceRequest) :
  status c = Completed -> status p2 = Pending -> status p3 = Pending ->
  getTime (requestTime c) = Num t1 ->
  getTime (requestTime p2) = Num t2 ->
  getTime (requestTime p3) = Num t3 ->
  t2 < t3 ->
  Permutation s [c; p2; p3] ->
  StronglySorted inOrder s ->
  s = [p3; p2; c].
Proof.
  clear tza.
  intros Hc Hp2 Hp3 Ht1 Ht2 Ht3 Hlt Hperm Hsorted.
  assert (Ncp2 : ~ inOrder c p2) by (apply not_inOrder_completed_pending; assumption).
  assert (Ncp3 : ~ inOrder c p3) by (apply not_inOrder_completed_pending; assumption).
  assert (N23 : ~ inOrder p2 p3).
  { intros H. apply (inOrder_same_status_times p2 p3 t2 t3) in H; [lia|congruence|auto|auto]. }
  assert (Dcp2 : c <> p2) by congruence.
  assert (Dcp3 : c <> p3) by congruence.
  assert (D23 : p2 <> p3) by (intros ->; rewrite Ht2 in Ht3; injection Ht3; lia).
  pose proof (Permutation_length Hperm) as Hlen.
  destruct s as [|x [|y [|z [|? ?]]]]; try discriminate Hlen.
  assert (Hx : In x [c; p2; p3]) by (apply (Permutation_in _ Hperm); simpl; auto).
  assert (Hy : In y [c; p2; p3]) by (apply (Permutation_in _ Hperm); simpl; auto).
  assert (Hz : In z [c; p2; p3]) by (apply (Permutation_in _ Hperm); simpl; auto).
  apply Permutation_sym in Hperm.
  assert (Hinc : In c [x; y; z]) by (apply (Permutation_in _ Hperm); simpl; auto).
  assert (Hin2 : In p2 [x; y; z]) by (apply (Permutation_in _ Hperm); simpl; auto).
  assert (Hin3 : In p3 [x; y; z]) by (apply (Permutation_in _ Hperm); simpl; auto).
  inversion Hsorted as [|? ? Hs' Hxs]; subst.
  inversion Hs' as [|? ? _ Hys]; subst.
  inversion Hxs as [|? ? Hxy Hxz']; subst.
  inversion Hxz' as [|? ? Hxz _]; subst.
  inversion Hys as [|? ? Hyz _]; subst.
  clear Hsorted Hs' Hxs Hys Hxz' Hperm Hlen.
  simpl in Hx, Hy, Hz.
  destruct Hx as [<- | [<- | [<- | []]]];
    destruct Hy as [<- | [<- | [<- | []]]];
    destruct Hz as [<- | [<- | [<- | []]]];
    try reflexivity; exfalso; simpl in Hinc, Hin2, Hin3; intuition congruence.
Qed.

Lemma StronglySorted_suffix {A : Type} (R : A -> A -> Prop) (l1 l2 : list A) :
  StronglySorted R (l1 ++ l2)%list -> StronglySorted R l2.
Proof.
  induction l1 as [|x l1 IH]; simpl; [auto|].
  intros H. apply StronglySorted_inv in H. apply IH. apply H.
Qed.

(** C3. On entities with valid request times the sorted view is a
    rearrangement of the list in which no Completed entity stands before
    a Pending one, whatever their times, and entities of equal status
    stand newest request time first; so one Completed entity and two
    Pending ones at times t2 < t3 come out as Pending at t3, Pending at
    t2, Completed, in whatever order they went in. *)
Theorem sortedRequests_pending_first_newest_first (l : list ServiceRequest) :
  Forall (fun r => validDate (requestTime r)) l ->
  Permutation (sortedRequests l) l
  /\ StronglySorted inOrder (sortedRequests l)
  /\ (forall a b before between after,
        sortedRequests l = (before ++ a :: between ++ b :: after)%list ->
        ~ (status a = Completed /\ status b = Pending)
        /\ (status a = status b ->
            exists ta tb, getTime (requestTime a) = Num ta
                          /\ getTime (requestTime b) = Num tb
                          /\ tb <= ta))
  /\ (forall c p2 p3 t1 t2 t3,
        status c = Completed -> status p2 = Pending -> status p3 = Pending ->
        getTime (requestTime c) = Num t1 ->
        getTime (requestTime p2) = Num t2 ->
        getTime (requestTime p3) = Num t3 ->
        t2 < t3 ->
        Permutation l [c; p2; p3] ->
        sortedRequests l = [p3; p2; c]).
Proof.
  intros Hvalid.
  pose proof (Array_sort_perm compareRequests l) as Hperm.
  pose proof (sortedRequests_sorted l Hvalid) as Hsorted.
  fold (sortedRequests l) in Hperm.
  repeat split; auto.
  - intros [Ha Hb].
    rewrite H in Hsorted.
    apply StronglySorted_suffix in Hsorted.
    inversion Hsorted as [|? ? _ Hall]; subst.
    rewrite Forall_forall in Hall.
    apply (not_inOrder_completed_pending a b Ha Hb).
    apply Hall. apply in_or_app. right. left. reflexivity.
  - intros Hst.
    rewrite H in Hsorted.
    apply StronglySorted_suffix in Hsorted.
    inversion Hsorted as [|? ? _ Hall]; subst.
    rewrite Forall_forall in Hall.
    assert (Hab : inOrder a b) by (apply Hall; apply in_or_app; right; left; reflexivity).
    destruct Hab as [[H1 H2] | [_ Ht]]; [congruence | exact Ht].
  - intros c p2 p3 t1 t2 t3 Hc Hp2 Hp3 Ht1 Ht2 Ht3 Hlt Hl.
    apply (three_in_order_unique c p2 p3 t1 t2 t3); auto.
    rewrite Hperm. exact Hl.
Qed.

(** *** The filtered view *)

Lemma trimEnd_empty (s : string) : Str.trimEnd s = "" <-> blank s.
Proof.
  unfold blank. induction s as [|c s IH]; simpl.
  - split; [intros _ ? [] | reflexivity].
  - destruct (Str.trimEnd s) eqn:Ht.
    + destruct (Str.isWhiteSpace c) eqn:Hc; split.
      * intros _ x [<- | Hx]; [exact Hc | apply IH; auto].
      * reflexivity.
      * discriminate.
      * intros H. rewrite (H c) in Hc by auto. discriminate.
    + split; [discriminate|].
      intros H. assert (Hs : String a s0 = "") by (apply IH; auto). discriminate.
Qed.

Lemma trimStart_blank (s : string) : blank (Str.trimStart s) <-> blank s.
Proof.
  unfold blank. induction s as [|c s IH]; simpl; [reflexivity|].
  destruct (Str.isWhiteSpace c) eqn:Hc; [|reflexivity].
  rewrite IH. split.
  - intros H x [<- | Hx]; auto.
  - intros H x Hx. apply H. auto.
Qed.

Lemma trim_empty (s : string) : Str.trim s = "" <-> blank s.
Proof.
  unfold Str.trim. rewrite trimEnd_empty. apply trimStart_blank.
Qed.

Lemma not_blank_witness (s : string) :
  ~ blank s -> exists c, In c (list_ascii_of_string s) /\ Str.isWhiteSpace c = false.
Proof.
  unfold blank. induction s as [|c s IH]; simpl; intros H.
  - exfalso. apply H. intros ? [].
  - destruct (Str.isWhiteSpace c) eqn:Hc.
    + destruct IH as (x & Hx & Hw).
      * intros Hs. apply H. intros y [<- | Hy]; auto.
      * exists x. auto.
    + exists c. auto.
Qed.

Lemma prefix_occurs (t s : string) :
  prefix t s = true <-> exists post, s = (t ++ post)%string.
Proof.
  revert s. induction t as [|c t IH]; intros [|d s]; simpl.
  - split; [exists ""; reflexivity | reflexivity].
  - split; [exists (String d s); reflexivity | reflexivity].
  - split; [discriminate | intros [? H]; discriminate].
  - destruct (ascii_dec c d) as [<- | Hne].
    + rewrite IH. split; intros [post H]; exists post; [rewrite H | injection H]; auto.
    + split; [discriminate | intros [? H]; injection H; congruence].
Qed.

Lemma includes_occurs (s t : string) : Str.includes s t = true <-> occurs t s.
Proof.
  unfold occurs. induction s as [|d s IH].
  - unfold Str.includes. destruct (prefix t "") eqn:Hp.
    + apply prefix_occurs in Hp. destruct Hp as [post Hp].
      split; [intros _; exists "", post; exact Hp | reflexivity].
    + split; [discriminate|]. intros (pre & post & H).
      destruct pre; simpl in H; [|discriminate].
      assert (Hp' : prefix t "" = true) by (apply prefix_occurs; eauto).
      congruence.
  - change (Str.includes (String d s) t)
      with (if prefix t (String d s) then true else Str.includes s t).
    destruct (prefix t (String d s)) eqn:Hp.
    + apply prefix_occurs in Hp. destruct Hp as [post Hp].
      split; [intros _; exists "", post; exact Hp | reflexivity].
    + rewrite IH. split; intros (pre & post & H).
      * exists (String d pre), post. simpl. rewrite H. reflexivity.
      * destruct pre as [|e pre]; simpl in H.
        -- assert (Hp' : prefix t (String d s) = true) by (apply prefix_occurs; eauto).
           congruence.
        -- injection H as _ H. eauto.
Qed.

Lemma RequestStatus_eqb_eq (a b : RequestStatus) :
  RequestStatus_eqb a b = true <-> a = b.
Proof. destruct a, b; simpl; split; congruence. Qed.

Lemma ServiceType_eqb_eq (a b : ServiceType) :
  ServiceType_eqb a b = true <-> a = b.
Proof. destruct a, b; simpl; split; congruence. Qed.

Lemma statusPasses_iff (f : Filter RequestStatus) (req : ServiceRequest) :
  statusPasses f req = true <-> f = ALL \/ f = Only (status req).
Proof.
  destruct f as [|v]; simpl.
  - split; auto.
  - rewrite RequestStatus_eqb_eq. split.
    + intros ->. auto.
    + intros [H | H]; [discriminate | congruence].
Qed.

Lemma serviceTypePasses_iff (f : Filter ServiceType) (req : ServiceRequest) :
  serviceTypePasses f req = true <-> f = ALL \/ f = Only (serviceType req).
Proof.
  destruct f as [|v]; simpl.
  - split; auto.
  - rewrite ServiceType_eqb_eq. split.
    + intros ->. auto.
    + intros [H | H]; [discriminate | congruence].
Qed.

Lemma datePasses_iff (d : string) (req : ServiceRequest) :
  datePasses d req = true
  <-> d = "" \/ toLocaleDateString_enCA tza (requestTime req) = d.
Proof.
  unfold datePasses. destruct (String.eqb_spec d "") as [-> | Hne].
  - split; auto.
  - rewrite String.eqb_eq. split; auto. intros [H | H]; [contradiction | exact H].
Qed.

Lemma searchPasses_iff (term : string) (req : ServiceRequest) :
  searchPasses term req = true
  <-> Str.trim term = ""
      \/ occurs (Str.toLowerCase term) (Str.toLowerCase (flightNumber req))
      \/ occurs (Str.toLowerCase term) (Str.toLowerCase (aircraftBay req))
      \/ occurs (Str.toLowerCase term) (Str.toLowerCase (staffName req)).
Proof.
  clear parse.
  unfold searchPasses. destruct (String.eqb_spec (Str.trim term) "") as [He | Hne].
  - split; auto.
  - rewrite !orb_true_iff, !includes_occurs. tauto.
Qed.

Lemma sortedRequests_In (l : list ServiceRequest) (req : ServiceRequest) :
  In req (sortedRequests l) <-> In req l.
Proof.
  split; apply Permutation_in;
    [|apply Permutation_sym]; apply Array_sort_perm.
Qed.

(** The locale's rendering is the YYYY-MM-DD form of the local calendar
    date (for the years of the common era). *)
Lemma toLocaleDateString_ymd (d : Date) (t : Z) :
  getTime d = Num t ->
  let local := Time.LocalTime tza t in
  0 < Time.YearFromTime local ->
  toLocaleDateString_enCA tza d
  = ymd (Time.YearFromTime local) (Time.MonthFromTime local + 1)
      (Time.DateFromTime local).
Proof.
  intros Ht local Hy. unfold toLocaleDateString_enCA, ymd. rewrite Ht.
  fold local. cbv zeta.
  destruct (Z.leb_spec (Time.YearFromTime local) 0); [lia | reflexivity].
Qed.

(** C4. The requester view keeps an entity of the list exactly when it
    passes all four filters: status ('ALL' or the entity's status),
    service type ('ALL' or the entity's type), date (unset, or the
    rendering of the request time's local calendar date equals the filter
    value), and search (the lower-cased term occurs in the lower-cased
    flight number, aircraft bay or requester name; a term that trims to
    nothing lets every entity pass). *)
Theorem filteredRequests_keeps_exactly (s : AppState) (req : ServiceRequest) :
  In req (filteredRequests s)
  <-> In req (requests s)
      /\ (statusFilter s = ALL \/ statusFilter s = Only (status req))
      /\ (serviceTypeFilter s = ALL \/ serviceTypeFilter s = Only (serviceType req))
      /\ (dateFilter s = ""
          \/ toLocaleDateString_enCA tza (requestTime req) = dateFilter s)
      /\ (Str.trim (searchTerm s) = ""
          \/ occurs (Str.toLowerCase (searchTerm s)) (Str.toLowerCase (flightNumber req))
          \/ occurs (Str.toLowerCase (searchTerm s)) (Str.toLowerCase (aircraftBay req))
          \/ occurs (Str.toLowerCase (searchTerm s)) (Str.toLowerCase (staffName req))).
Proof.
  unfold filteredRequests.
  rewrite !filter_In, sortedRequests_In, statusPasses_iff, serviceTypePasses_iff,
    datePasses_iff, searchPasses_iff.
  tauto.
Qed.

Lemma filter_all {A : Type} (f : A -> bool) (l : list A) :
  (forall x, f x = true) -> filter f l = l.
Proof.
  intros H. induction l as [|x l IH]; simpl; [reflexivity|].
  rewrite H, IH. reflexivity.
Qed.

(** C10. When every character of the search term is white space (the
    empty term included) the requester view is the result of the status,
    service-type and date filters alone; the view can differ from that
    result only when the term has a character that is not white space. *)
Theorem blank_search_term_filters_nothing (s : AppState) :
  let others :=
    filter (datePasses (dateFilter s))
      (filter (serviceTypePasses (serviceTypeFilter s))
         (filter (statusPasses (statusFilter s)) (sortedRequests (requests s)))) in
  (blank (searchTerm s) ->
     filteredRequests s = others
     /\ forall req, searchPasses (searchTerm s) req = true)
  /\ (filteredRequests s <> others ->
        exists c, In c (list_ascii_of_string (searchTerm s))
                  /\ Str.isWhiteSpace c = false).
Proof.
  intros others.
  assert (Hblank : blank (searchTerm s) ->
                   forall req, searchPasses (searchTerm s) req = true).
  { intros Hb req. apply searchPasses_iff. left. apply trim_empty. exact Hb. }
  split.
  - intros Hb. split; [|auto]. unfold filteredRequests. apply filter_all. auto.
  - intros Hne. apply not_blank_witness. intros Hb. apply Hne.
    unfold filteredRequests. apply filter_all. auto.
Qed.

(** *** The record transcoder *)

(** C7 (as the program has it). Decoding never fails.  It renames the
    fields from the wire names to the entity names, passes the enums
    through, and makes requestTime [new Date(request_time)]: an absent or
    unparseable request_time gives an Invalid Date, not a failure, and a
    call answered with such a record resolves with the decoded entity.  A
    falsy completion_time (absent, null, the empty string) stays absent;
    a truthy one becomes [new Date(completion_time)]. *)
Theorem transformRequest_decodes (request : Wire.t) :
  let e := transformRequest request in
  (id e = Wire.id request
   /\ staffName e = Wire.staff_name request
   /\ staffNumber e = Wire.staff_number request
   /\ aircraftBay e = Wire.aircraft_bay request
   /\ flightNumber e = Wire.flight_number request
   /\ aircraftEta e = Wire.aircraft_eta request
   /\ deliveryStaffName e = Wire.delivery_staff_name request
   /\ deliveryStaffNumber e = Wire.delivery_staff_number request)
  /\ (status e = Wire.status request /\ serviceType e = Wire.service_type request)
  /\ (requestTime e = Date_of parse (Wire.request_time request)
      /\ (Wire.request_time request = JsUndefined -> requestTime e = InvalidDate)
      /\ (forall s, Wire.request_time request = JsString s -> parse s = NaN ->
                    requestTime e = InvalidDate))
  /\ ((truthy (Wire.completion_time request) = false -> completionTime e = None)
      /\ (truthy (Wire.completion_time request) = true ->
          completionTime e = Some (Date_of parse (Wire.completion_time request)))
      /\ (Wire.completion_time request = JsUndefined
          \/ Wire.completion_time request = JsNull
          \/ Wire.completion_time request = JsString "" ->
          completionTime e = None))
  /\ (forall w n st response target updates,
        fetch w (mkRequest ("/api/requests/" ++ target) PATCH (UpdateBody updates))
        = Some response ->
        ok response = true ->
        (exists contentType,
           content_type response = Some contentType
           /\ Str.includes contentType "application/json" = true) ->
        json response = Some (JsonRecord request) ->
        settled (run w (updateRequest target updates) n st) = Resolved e).
Proof.
  intros e. subst e. unfold transformRequest. simpl.
  split; [repeat split|]. split; [split; reflexivity|]. split; [|split].
  - split; [reflexivity|]. split.
    + intros ->. reflexivity.
    + intros s -> Hs. simpl. rewrite Hs. reflexivity.
  - split; [intros ->; reflexivity|]. split; [intros ->; reflexivity|].
    intros [-> | [-> | ->]]; reflexivity.
  - intros w n st response target updates Hf Hok (contentType & Hct & Hinc) Hj.
    unfold updateRequest, await_fetch, processResponse, API_BASE_PATH. simpl.
    rewrite Hf. simpl. rewrite Hok, Hct. simpl. rewrite Hinc, Hj. reflexivity.
Qed.

(** ** Further properties of the program *)

(** *** Each handler, as a function of the answer to its call *)

Lemma run_addRequest (w : World) (request : NewRequest.t) (n : nat) (st : AppState) :
  run w (addRequest request) n st
  = let call := run w (createRequest request) n st in
    match settled call with
    | Resolved newRequest =>
        mkRun (notify w n "Service request created successfully." Notif.success
                 (setRequests (cons newRequest) st))
          (Resolved tt) (sent call) (S n)
    | Rejected _ =>
        mkRun (notify w n "Failed to create service request." Notif.error st)
          (Resolved tt) (sent call) (S n)
    | Untyped => mkRun st Untyped (sent call) n
    end.
Proof.
  unfold addRequest, createRequest, await_fetch, processResponse, addNotification,
    API_BASE_PATH.
  answer; reflexivity.
Qed.

Lemma run_handleConfirmComplete
  (w : World) (cl : AppState) (target : string) (n : nat) (st : AppState) :
  pendingId (confirmingComplete cl) = Some target ->
  run w (handleConfirmComplete cl) n st
  = let call := run w (updateRequest target (completeUpdates (Date_now (clock w n))))
                  (S n) st in
    match settled call with
    | Resolved updatedRequest =>
        mkRun (notify w (S n) "Request marked as complete." Notif.info
                 (setConfirmingComplete None
                    (setRequests
                       (map (fun req => if (id req =? target)%string
                                        then updatedRequest else req)) st)))
          (Resolved tt) (sent call) (S (S n))
    | Rejected _ =>
        mkRun (notify w (S n) "Failed to mark request as complete." Notif.error st)
          (Resolved tt) (sent call) (S (S n))
    | Untyped => mkRun st Untyped (sent call) (S n)
    end.
Proof.
  intros Hpending. unfold handleConfirmComplete. rewrite Hpending.
  unfold updateRequest, await_fetch, processResponse, addNotification, API_BASE_PATH.
  answer; reflexivity.
Qed.

Lemma run_handleConfirmCompleteDelivery
  (w : World) (cl : AppState) (target : string) (reqToUpdate : ServiceRequest)
  (deliveryStaffName deliveryStaffNumber completionTimeStr : string)
  (n : nat) (st : AppState) :
  pendingId (completingDelivery cl) = Some target ->
  find (fun r => (id r =? target)%string) (requests cl) = Some reqToUpdate ->
  run w (handleConfirmCompleteDelivery cl deliveryStaffName deliveryStaffNumber
           completionTimeStr) n st
  = let updates :=
      deliveryUpdates (completionDate (requestTime reqToUpdate) completionTimeStr)
        deliveryStaffName deliveryStaffNumber in
    let call := run w (updateRequest target updates) n st in
    match settled call with
    | Resolved updatedRequest =>
        mkRun (notify w n "Task completed successfully." Notif.success
                 (setCompletingDelivery None
                    (setRequests
                       (map (fun req => if (id req =? target)%string
                                        then updatedRequest else req)) st)))
          (Resolved tt) (sent call) (S n)
    | Rejected _ =>
        mkRun (notify w n "Failed to complete task." Notif.error st)
          (Resolved tt) (sent call) (S n)
    | Untyped => mkRun st Untyped (sent call) n
    end.
Proof.
  intros Hpending Hfind. unfold handleConfirmCompleteDelivery.
  rewrite Hpending, Hfind.
  unfold updateRequest, await_fetch, processResponse, addNotification, API_BASE_PATH.
  answer; reflexivity.
Qed.

Lemma run_handleConfirmCompleteDelivery_missing
  (w : World) (cl : AppState) (target : string)
  (deliveryStaffName deliveryStaffNumber completionTimeStr : string)
  (n : nat) (st : AppState) :
  pendingId (completingDelivery cl) = Some target ->
  find (fun r => (id r =? target)%string) (requests cl) = None ->
  run w (handleConfirmCompleteDelivery cl deliveryStaffName deliveryStaffNumber
           completionTimeStr) n st
  = mkRun (notify w n "Failed to complete task." Notif.error st) (Resolved tt) [] (S n).
Proof.
  intros Hpending Hfind. unfold handleConfirmCompleteDelivery.
  rewrite Hpending, Hfind. reflexivity.
Qed.

Lemma run_handleConfirmDelete
  (w : World) (cl : AppState) (target : string) (n : nat) (st : AppState) :
  pendingId (confirmingDelete cl) = Some target ->
  run w (handleConfirmDelete cl) n st
  = let call := run w (deleteRequest target) n st in
    match settled call with
    | Resolved _ =>
        mkRun (notify w n "Request has been deleted." Notif.info
                 (setConfirmingDelete None
                    (setRequests
                       (filter (fun req => negb (id req =? target)%string)) st)))
          (Resolved tt) (sent call) (S n)
    | Rejected _ =>
        mkRun (notify w n "Failed to delete request." Notif.error st)
          (Resolved tt) (sent call) (S n)
    | Untyped => mkRun st Untyped (sent call) n
    end.
Proof.
  intros Hpending. unfold handleConfirmDelete. rewrite Hpending.
  unfold deleteRequest, await_fetch, processResponse, addNotification, API_BASE_PATH.
  answer; reflexivity.
Qed.

Lemma run_loadRequests (w : World) (n : nat) (st : AppState) :
  run w loadRequests n st
  = let call := run w getRequests n st in
    match settled call with
    | Resolved fetchedRequests =>
        mkRun (setIsLoading false
                 (setRequests (fun _ => fetchedRequests)
                    (setError None (setIsLoading true st))))
          (Resolved tt) (sent call) n
    | _ =>
        mkRun (setIsLoading false
                 (notify w n "Failed to load service requests from the server."
                    Notif.error
                    (setError
                       (Some "Failed to load service requests. Please try again later.")
                       (setError None (setIsLoading true st)))))
          (Resolved tt) (sent call) (S n)
    end.
Proof.
  unfold loadRequests, getRequests, await_fetch, processResponse, addNotification,
    API_BASE_PATH.
  answer; reflexivity.
Qed.

(** *** The notification queue *)



(** *** Loading *)

(** X2. A load always ends with the loading flag cleared.  When the call
    resolves, the list is replaced whole by the decoded records of the
    answered array, in their order, whatever the list held before, the
    error is cleared and no notification is enqueued; when it does not,
    the list is left as it was, the error text is set and exactly one
    error notification is enqueued. *)
Theorem loadRequests_replaces_or_reports (w : World) (n : nat) (st : AppState) :
  let r := run w loadRequests n st in
  isLoading (final r) = false
  /\ settled r = Resolved tt
  /\ match settled (run w getRequests n st) with
     | Resolved fetchedRequests =>
         requests (final r) = fetchedRequests
         /\ (exists response ws,
               fetch w (mkRequest "/api/requests" GET NoBody) = Some response
               /\ json response = Some (JsonArray ws)
               /\ fetchedRequests = map transformRequest ws)
         /\ error (final r) = None
         /\ notifications (final r) = notifications st
     | _ =>
         requests (final r) = requests st
         /\ error (final r)
            = Some "Failed to load service requests. Please try again later."
         /\ notifications (final r)
            = (notifications st
               ++ [Notif.mk ("notif-" ++ Str.decimal (clock w n))
                     "Failed to load service requests from the server."
                     Notif.error])%list
     end.
Proof.
  unfold loadRequests, getRequests, await_fetch, processResponse, addNotification,
    API_BASE_PATH.
  answer; repeat split; eauto.
Qed.

(** *** The transport adapter *)

(** The text of the error [processResponse] raises. *)
Lemma not_ok_message (response : Response) :
  ok response = false ->
  processResponse response
  = Throw ("API Error: " ++ Str.decimal (statusCode response) ++ " "
           ++ statusText response ++ " - " ++ text response).
Proof.
  intros Hok. unfold processResponse. rewrite Hok. reflexivity.
Qed.

(** X3. A response that is not OK makes each of the four API functions
    reject, with a message that holds the status code, the status text and
    the text of the body. *)
Theorem api_rejects_with_status_and_body
  (w : World) (response : Response) (n : nat) (st : AppState) :
  ok response = false ->
  let message :=
    "API Error: " ++ Str.decimal (statusCode response) ++ " "
    ++ statusText response ++ " - " ++ text response in
  (fetch w (mkRequest "/api/requests" GET NoBody) = Some response ->
   settled (run w getRequests n st) = Rejected message)
  /\ (forall requestData,
        fetch w (mkRequest "/api/requests" POST (CreateBody requestData)) = Some response ->
        settled (run w (createRequest requestData) n st) = Rejected message)
  /\ (forall id updates,
        fetch w (mkRequest ("/api/requests/" ++ id) PATCH (UpdateBody updates))
        = Some response ->
        settled (run w (updateRequest id updates) n st) = Rejected message)
  /\ (forall id,
        fetch w (mkRequest ("/api/requests/" ++ id) DELETE NoBody) = Some response ->
        settled (run w (deleteRequest id) n st) = Rejected message).
Proof.
  intros Hok message. subst message.
  unfold getRequests, createRequest, updateRequest, deleteRequest, await_fetch,
    API_BASE_PATH.
  repeat split; intros; simpl in *;
    match goal with H : fetch _ _ = Some _ |- _ => rewrite H end;
    simpl; rewrite (not_ok_message response Hok); reflexivity.
Qed.

Lemma deleteRequest_settles (w : World) (id : string) (n : nat) (st : AppState) :
  settled (run w (deleteRequest id) n st)
  = match fetch w (mkRequest ("/api/requests/" ++ id) DELETE NoBody) with
    | None => Rejected "TypeError: Failed to fetch"
    | Some response =>
        if negb (ok response) then
          Rejected ("API Error: " ++ Str.decimal (statusCode response) ++ " "
                    ++ statusText response ++ " - " ++ text response)
        else
          match content_type response with
          | Some contentType =>
              if Str.includes contentType "application/json" then
                match json response with
                | Some _ => Resolved tt
                | None => Rejected "SyntaxError: Unexpected token in JSON"
                end
              else Resolved tt
          | None => Resolved tt
          end
    end.
Proof.
  unfold deleteRequest, await_fetch, processResponse, API_BASE_PATH.
  answer; reflexivity.
Qed.

(** X4. A delete resolves exactly when the service answers OK and either
    announces no JSON body (a 204 No Content, say) or sends a JSON body
    that parses, whatever it holds; an OK answer that announces JSON and
    does not parse makes the delete reject. *)
Theorem deleteRequest_resolves_iff (w : World) (id : string) (n : nat) (st : AppState) :
  settled (run w (deleteRequest id) n st) = Resolved tt
  <-> exists response,
        fetch w (mkRequest ("/api/requests/" ++ id) DELETE NoBody) = Some response
        /\ ok response = true
        /\ ((forall contentType,
               content_type response = Some contentType ->
               Str.includes contentType "application/json" = false)
            \/ json response <> None).
Proof.
  rewrite deleteRequest_settles.
  destruct (fetch w _) as [response|]; [|split; [discriminate | intros (? & H & _); discriminate]].
  split.
  - intros H. exists response. split; [reflexivity|].
    destruct (ok response); [|discriminate]. split; [reflexivity|]. simpl in H.
    destruct (content_type response) as [ct|]; [|left; discriminate].
    destruct (Str.includes ct "application/json") eqn:Hinc.
    + right. destruct (json response); [discriminate | discriminate].
    + left. intros ct' Hct. injection Hct as <-. exact Hinc.
  - intros (response' & Hf & Hok & Hbody). injection Hf as <-.
    rewrite Hok. simpl.
    destruct (content_type response) as [ct|]; [|reflexivity].
    destruct (Str.includes ct "application/json") eqn:Hinc.
    + destruct Hbody as [Hct | Hj].
      * rewrite (Hct ct eq_refl) in Hinc. discriminate.
      * destruct (json response); [reflexivity | contradiction].
    + reflexivity.
Qed.

(** *** Updating the store *)

Lemma replace_absent_id (target : string) (updated : ServiceRequest)
  (l : list ServiceRequest) :
  ~ In target (map id l) ->
  map (fun req => if (id req =? target)%string then updated else req) l = l.
Proof.
  induction l as [|x l IH]; simpl; intros Hnotin; [reflexivity|].
  destruct (String.eqb_spec (id x) target) as [Heq | Hne].
  - exfalso. apply Hnotin. left. exact Heq.
  - rewrite IH; [reflexivity|]. intros Hin. apply Hnotin. right. exact Hin.
Qed.

Lemma replace_keeps_ids (target : string) (updated : ServiceRequest)
  (l : list ServiceRequest) :
  id updated = target ->
  map id (map (fun req => if (id req =? target)%string then updated else req) l)
  = map id l.
Proof.
  intros Hid. induction l as [|x l IH]; simpl; [reflexivity|].
  rewrite IH. destruct (String.eqb_spec (id x) target) as [Heq | Hne]; congruence.
Qed.



(** X6. The delivery completion looks its target up in the list of the
    render the dialog was opened in.  A target that is not in that list
    ends the handler at once: nothing is sent, the list and the pending id
    are left alone, and one error notification is enqueued.  A target that
    was in that list but is no longer in the current one is still sent to
    the service; when the call resolves the list is left as it is, the
    dialog closes and success is reported. *)
Theorem delivery_lookup_uses_rendered_list
  (w : World) (cl : AppState) (target : string)
  (deliveryStaffName deliveryStaffNumber completionTimeStr : string)
  (n : nat) (st : AppState) :
  pendingId (completingDelivery cl) = Some target ->
  let r := run w (handleConfirmCompleteDelivery cl deliveryStaffName deliveryStaffNumber
                    completionTimeStr) n st in
  (find (fun r => (id r =? target)%string) (requests cl) = None ->
   sent r = []
   /\ requests (final r) = requests st
   /\ completingDelivery (final r) = completingDelivery st
   /\ notifications (final r)
      = (notifications st
         ++ [Notif.mk ("notif-" ++ Str.decimal (clock w n))
               "Failed to complete task." Notif.error])%list)
  /\ (forall reqToUpdate updatedRequest,
        find (fun r => (id r =? target)%string) (requests cl) = Some reqToUpdate ->
        ~ In target (map id (requests st)) ->
        settled (run w (updateRequest target
                          (deliveryUpdates
                             (completionDate (requestTime reqToUpdate) completionTimeStr)
                             deliveryStaffName deliveryStaffNumber)) n st)
        = Resolved updatedRequest ->
        List.length (sent r) = 1%nat
        /\ requests (final r) = requests st
        /\ completingDelivery (final r) = None
        /\ notifications (final r)
           = (notifications st
              ++ [Notif.mk ("notif-" ++ Str.decimal (clock w n))
                    "Task completed successfully." Notif.success])%list).
Proof.
  intros Hpending. cbv zeta. split.
  - intros Hfind.
    rewrite (run_handleConfirmCompleteDelivery_missing w cl target _ _ _ n st
               Hpending Hfind).
    repeat split.
  - intros reqToUpdate updatedRequest Hfind Habsent Hcall.
    rewrite (run_handleConfirmCompleteDelivery w cl target reqToUpdate _ _ _ n st
               Hpending Hfind).
    cbv zeta. rewrite Hcall. simpl.
    rewrite (replace_absent_id target updatedRequest _ Habsent).
    repeat split.
    revert Hcall. unfold updateRequest, await_fetch, processResponse, API_BASE_PATH.
    answer; intros; try discriminate; reflexivity.
Qed.

(** X14. The store keeps the ids of its list distinct as long as the
    service answers in kind: a delete always does; a completion does when
    the record answered has the id that was asked for; a create does when
    the record answered has an id the list does not hold. *)
Theorem distinct_ids_preserved (w : World) (cl : AppState) (n : nat) (st : AppState) :
  NoDup (map id (requests st)) ->
  NoDup (map id (requests (final (run w (handleConfirmDelete cl) n st))))
  /\ (forall target,
        pendingId (confirmingComplete cl) = Some target ->
        (forall updatedRequest,
           settled (run w (updateRequest target
                             (completeUpdates (Date_now (clock w n)))) (S n) st)
           = Resolved updatedRequest ->
           id updatedRequest = target) ->
        NoDup (map id (requests (final (run w (handleConfirmComplete cl) n st)))))
  /\ (forall request,
        (forall newRequest,
           settled (run w (createRequest request) n st) = Resolved newRequest ->
           ~ In (id newRequest) (map id (requests st))) ->
        NoDup (map id (requests (final (run w (addRequest request) n st))))).
Proof.
  intros Hnd. split; [|split].
  - destruct (pendingId (confirmingDelete cl)) as [target|] eqn:Hp;
      [|unfold handleConfirmDelete; rewrite Hp; exact Hnd].
    rewrite (run_handleConfirmDelete w cl target n st Hp).
    cbv zeta. destruct (settled (run w (deleteRequest target) n st)); simpl; auto.
    clear Hp. induction (requests st) as [|x l IH]; simpl; [constructor|].
    inversion Hnd as [|? ? Hnotin Hnd']; subst.
    destruct (negb (id x =? target)%string); simpl; auto.
    constructor; auto.
    intros Hin. apply Hnotin. apply in_map_iff in Hin. destruct Hin as (y & Hy & Hin).
    apply filter_In in Hin. apply in_map_iff. exists y. tauto.
  - intros target Hp Hsame.
    rewrite (run_handleConfirmComplete w cl target n st Hp). cbv zeta.
    destruct (settled (run w (updateRequest _ _) (S n) st)) as [u| |] eqn:Hcall;
      simpl; auto.
    rewrite replace_keeps_ids; auto.
  - intros request Hfresh. rewrite run_addRequest. cbv zeta.
    destruct (settled (run w (createRequest request) n st)) as [e| |] eqn:Hcall;
      simpl; auto.
    constructor; auto.
Qed.

(** X20. A create followed by the confirmed delete of the created id gives
    back the list there was, when both calls resolve and the created id is
    one the list did not hold. *)
Theorem create_then_delete_restores
  (w1 w2 : World) (request : NewRequest.t) (newRequest : ServiceRequest)
  (cl : AppState) (n : nat) (st : AppState) :
  settled (run w1 (createRequest request) n st) = Resolved newRequest ->
  ~ In (id newRequest) (map id (requests st)) ->
  pendingId (confirmingDelete cl) = Some (id newRequest) ->
  let created := run w1 (addRequest request) n st in
  settled (run w2 (deleteRequest (id newRequest)) (reads created) (final created))
  = Resolved tt ->
  requests (final created) = newRequest :: requests st
  /\ requests (final (run w2 (handleConfirmDelete cl) (reads created) (final created)))
     = requests st.
Proof.
  intros Hcreate Hfresh Hpending created Hdelete. subst created.
  rewrite run_addRequest in *. cbv zeta in *. rewrite Hcreate in *.
  split; [reflexivity|].
  rewrite (run_handleConfirmDelete w2 cl (id newRequest) _ _ Hpending).
  cbv zeta. rewrite Hdelete. simpl.
  rewrite String.eqb_refl. simpl. apply filter_absent_id. exact Hfresh.
Qed.

(** *** What every handler leaves alone *)

(** Splits a goal about the run of a handler into the outcomes of its
    call. *)
Ltac outcomes :=
  repeat match goal with
    | |- context [run ?w (addRequest ?rq) ?n ?st] =>
        rewrite (run_addRequest w rq n st); cbv zeta
    | |- context [run ?w (handleConfirmComplete ?cl) ?n ?st] =>
        let Hp := fresh "Hp" in
        destruct (pendingId (confirmingComplete cl)) eqn:Hp;
        [ rewrite (run_handleConfirmComplete w cl _ n st Hp); cbv zeta
        | unfold handleConfirmComplete; rewrite Hp ]
    | |- context [run ?w (handleConfirmDelete ?cl) ?n ?st] =>
        let Hp := fresh "Hp" in
        destruct (pendingId (confirmingDelete cl)) eqn:Hp;
        [ rewrite (run_handleConfirmDelete w cl _ n st Hp); cbv zeta
        | unfold handleConfirmDelete; rewrite Hp ]
    | |- context [run ?w (handleConfirmCompleteDelivery ?cl ?a ?b ?c) ?n ?st] =>
        let Hp := fresh "Hp" in
        let Hf := fresh "Hf" in
        destruct (pendingId (completingDelivery cl)) as [?target|] eqn:Hp;
        [ destruct (find (fun r => (id r =? target)%string) (requests cl)) eqn:Hf;
          [ rewrite (run_handleConfirmCompleteDelivery w cl _ _ a b c n st Hp Hf);
            cbv zeta
          | rewrite (run_handleConfirmCompleteDelivery_missing w cl _ a b c n st Hp Hf) ]
        | unfold handleConfirmCompleteDelivery; rewrite Hp ]
    | |- context [run ?w loadRequests ?n ?st] =>
        rewrite (run_loadRequests w n st); cbv zeta
    | |- context [settled (run ?w ?m ?n ?st)] =>
        destruct (settled (run w m n st)) eqn:?
    end;
  simpl.

(** X13. The notification queue only grows at its end, and by at most one
    entry per handler: whatever the control and whatever the service
    answers, the queue after the handler is the queue before it followed by
    no or one new notification, whose id is the clock reading it was made
    at; a handler that reached the service and finished leaves exactly
    one.  Only a dismissal takes entries out. *)
Theorem notifications_append_only
  (role : Role) (w : World) (cl : AppState) (e : UiEvent) (n : nat) (st : AppState) :
  let r := run w (handler role cl e) n st in
  match e with
  | Dismiss id =>
      notifications (final r)
      = filter (fun m => negb (Notif.id m =? id)%string) (notifications st)
  | _ =>
      exists extra,
        notifications (final r) = (notifications st ++ extra)%list
        /\ (List.length extra <= 1)%nat
        /\ (forall m, In m extra ->
              exists k, Notif.id m = "notif-" ++ Str.decimal (clock w k))
        /\ (sent r <> [] -> settled r = Resolved tt -> List.length extra = 1%nat)
  end.
Proof.
  destruct e, role; cbv zeta; unfold handler, onComplete; try reflexivity;
    outcomes;
    first
      [ exists []; rewrite app_nil_r;
        split; [reflexivity|];
        split; [simpl; lia|];
        split; [intros m []|];
        intros Hs Hr; solve [ exfalso; apply Hs; reflexivity | discriminate Hr ]
      | eexists; split; [reflexivity|];
        split; [simpl; lia|];
        split; [intros m [<- | []]; eexists; reflexivity | reflexivity] ].
Qed.

Lemma handler_keeps_load_flags
  (role : Role) (w : World) (cl : AppState) (e : UiEvent) (n : nat) (st : AppState) :
  isLoading (final (run w (handler role cl e) n st)) = isLoading st
  /\ error (final (run w (handler role cl e) n st)) = error st.
Proof.
  destruct e, role; unfold handler, onComplete; try (split; reflexivity);
    outcomes; split; reflexivity.
Qed.

(** X17. No control of the page clears a failed load: while the error of
    a load is set, the panel shows that error after every handler, whatever
    the handler did to the list; only another load can bring the list
    back. *)
Theorem load_error_outlives_handlers
  (role : Role) (w : World) (e : UiEvent) (n : nat) (st : AppState) (message : string) :
  isLoading st = false ->
  pendingId (error st) = Some message ->
  mainPanel role (final (run w (handler role st e) n st)) = ErrorPanel message.
Proof.
  intros Hloading Herror.
  destruct (handler_keeps_load_flags role w st e n st) as [Hl He].
  unfold mainPanel, RequestListPanel. rewrite Hl, He, Hloading, Herror. reflexivity.
Qed.

(** *** Sessions *)

Lemma handler_keeps_session
  (role : Role) (w : World) (e : UiEvent) (n : nat) (st : AppState) :
  wired role st e = true ->
  inSession role st ->
  inSession role (final (run w (handler role st e) n st)).
Proof.
  unfold inSession. intros Hwired (Hl & He & Hrole).
  destruct e, role; unfold handler, onComplete; simpl in Hwired; try discriminate;
    outcomes; repeat split; try tauto;
    try (destruct Hrole as (Hc & _); rewrite Hc in *; discriminate);
    try (rewrite Hrole in *; discriminate).
Qed.

Lemma play_keeps_session
  (role : Role) (events : list (World * UiEvent)) (n : nat) (st : AppState) :
  inSession role st -> inSession role (play role events n st).
Proof.
  revert n st. induction events as [|[w e] events IH]; intros n st Hin; simpl; [exact Hin|].
  destruct (wired role st e) eqn:Hwired; [|apply IH; exact Hin].
  apply IH. apply handler_keeps_session; assumption.
Qed.

(** X18. Throughout a session, once the component has mounted: the
    spinner is never shown again; the error of the panel is that of a
    failed load or none; a requester never has a delivery completion
    pending, and a delivery user never has a plain completion pending and
    never has a type, date or search filter set. *)
Theorem session_keeps_to_its_role
  (role : Role) (mount : World) (events : list (World * UiEvent)) :
  let s := session role mount events in
  isLoading s = false
  /\ mainPanel role s <> Spinner
  /\ (error s = None
      \/ error s = Some "Failed to load service requests. Please try again later.")
  /\ match role with
     | REQUEST => completingDelivery s = None
     | DELIVERY =>
         confirmingComplete s = None
         /\ serviceTypeFilter s = ALL
         /\ dateFilter s = ""
         /\ searchTerm s = ""
     end.
Proof.
  cbv zeta.
  assert (H : inSession role (session role mount events)).
  { unfold session. apply play_keeps_session.
    unfold inSession. destruct role; outcomes; repeat split; auto. }
  destruct H as (Hl & He & Hrole).
  split; [exact Hl|]. split; [|split; [exact He | exact Hrole]].
  unfold mainPanel, RequestListPanel. rewrite Hl.
  destruct (pendingId (error (session role mount events))); discriminate.
Qed.

(** *** The views *)

Lemma filter_length_perm {A : Type} (f : A -> bool) (l l' : list A) :
  Permutation l l' -> List.length (filter f l) = List.length (filter f l').
Proof.
  induction 1 as [|x l l' _ IH|x y l|l l' l'' _ IH1 _ IH2]; simpl.
  - reflexivity.
  - destruct (f x); simpl; congruence.
  - destruct (f x), (f y); reflexivity.
  - congruence.
Qed.

Lemma filter_status_split (l : list ServiceRequest) :
  (List.length (filter (fun req => RequestStatus_eqb (status req) Pending) l)
   + List.length (filter (fun req => RequestStatus_eqb (status req) Completed) l)
   = List.length l)%nat.
Proof.
  induction l as [|x l IH]; simpl; [reflexivity|].
  destruct (status x); simpl; lia.
Qed.

(** X7. The badge counts what the delivery view lists under its default
    filter: with the status filter on Pending the delivery view has
    [pendingCount] rows, with it on Completed it has the rest, with 'ALL'
    it has every entity of the store; and the view a delivery user sees on
    entering, before any control is used, is the first of these. *)
Theorem pendingCount_counts_delivery_view (s : AppState) :
  (statusFilter s = Only Pending ->
   List.length (filteredDeliveryRequests s) = pendingCount s)
  /\ (statusFilter s = Only Completed ->
      (List.length (filteredDeliveryRequests s) + pendingCount s
       = List.length (requests s))%nat)
  /\ (statusFilter s = ALL ->
      List.length (filteredDeliveryRequests s) = List.length (requests s))
  /\ (forall mount,
        List.length (filteredDeliveryRequests (session DELIVERY mount []))
        = pendingCount (session DELIVERY mount [])).
Proof.
  assert (Hp : forall f, List.length (filter f (sortedRequests (requests s)))
                         = List.length (filter f (requests s)))
    by (intros f; apply filter_length_perm, Array_sort_perm).
  unfold filteredDeliveryRequests, pendingCount.
  split; [|split; [|split]].
  - intros ->. apply Hp.
  - intros ->. simpl statusPasses. rewrite Hp.
    pose proof (filter_status_split (requests s)). unfold statusPasses. lia.
  - intros ->. simpl. rewrite filter_all by reflexivity.
    apply Permutation_length, Array_sort_perm.
  - intros mount.
    assert (Hs : statusFilter (session DELIVERY mount []) = Only Pending)
      by (unfold session; cbv zeta; cbn [play]; outcomes; reflexivity).
    rewrite Hs. apply filter_length_perm, Array_sort_perm.
Qed.

Lemma StronglySorted_filter {A : Type} (R : A -> A -> Prop) (f : A -> bool) (l : list A) :
  StronglySorted R l -> StronglySorted R (filter f l).
Proof.
  induction 1 as [|x l Hs IH Hx]; simpl; [constructor|].
  destruct (f x); [|exact IH].
  constructor; [exact IH|].
  rewrite Forall_forall in Hx |- *. intros y Hy. apply Hx.
  apply filter_In in Hy. tauto.
Qed.

(** X8. Filtering does not disturb the order: on entities with valid
    request times both views are in the order of the sorted view, pending
    first and newest first.  Whatever the requester view shows the
    delivery view shows under the same status filter; and with no filter
    set and a blank search term the requester view is the whole sorted
    list. *)
Theorem views_keep_the_order (s : AppState) :
  Forall (fun r => validDate (requestTime r)) (requests s) ->
  StronglySorted inOrder (filteredRequests s)
  /\ StronglySorted inOrder (filteredDeliveryRequests s)
  /\ (forall req, In req (filteredRequests s) -> In req (filteredDeliveryRequests s))
  /\ (statusFilter s = ALL -> serviceTypeFilter s = ALL -> dateFilter s = "" ->
      blank (searchTerm s) ->
      filteredRequests s = sortedRequests (requests s)
      /\ Permutation (filteredRequests s) (requests s)).
Proof.
  intros Hvalid. pose proof (sortedRequests_sorted _ Hvalid) as Hs.
  unfold filteredRequests, filteredDeliveryRequests.
  split; [repeat apply StronglySorted_filter; exact Hs|].
  split; [apply StronglySorted_filter; exact Hs|].
  split.
  - intros req Hin. repeat (apply filter_In in Hin; destruct Hin as [Hin ?]).
    apply filter_In. split; assumption.
  - intros Hst Hty Hd Hb.
    assert (Heq : filter (searchPasses (searchTerm s))
                    (filter (datePasses (dateFilter s))
                       (filter (serviceTypePasses (serviceTypeFilter s))
                          (filter (statusPasses (statusFilter s))
                             (sortedRequests (requests s)))))
                  = sortedRequests (requests s)).
    { rewrite Hst, Hty, Hd.
      rewrite (filter_all (statusPasses ALL)) by reflexivity.
      rewrite (filter_all (serviceTypePasses ALL)) by reflexivity.
      rewrite (filter_all (datePasses "")) by reflexivity.
      apply filter_all. intros req. apply searchPasses_iff. left.
      apply trim_empty. exact Hb. }
    rewrite Heq. split; [reflexivity | apply Array_sort_perm].
Qed.

Lemma sortedRequests_of_sorted (l : list ServiceRequest) :
  Forall (fun r => validDate (requestTime r)) l ->
  StronglySorted inOrder l ->
  sortedRequests l = l.
Proof.
  unfold sortedRequests, Array_sort.
  induction l as [|x l IH]; intros Hvalid Hsorted; simpl; [reflexivity|].
  inversion Hvalid as [|? ? Hx Hl]; subst.
  inversion Hsorted as [|? ? Hs Hall]; subst.
  rewrite IH by assumption.
  destruct l as [|y l']; [reflexivity|]. simpl.
  inversion Hl as [|? ? Hy _]; subst.
  assert (Hxy : notAfter (compareRequests x y) = true).
  { apply compareRequests_inOrder; auto. apply (Forall_inv Hall). }
  rewrite Hxy. reflexivity.
Qed.

(** X9. Sorting is idempotent on entities with valid request times: the
    sorted view of a list already in order is that list, so sorting the
    sorted view again changes nothing. *)
Theorem sortedRequests_idempotent (l : list ServiceRequest) :
  Forall (fun r => validDate (requestTime r)) l ->
  sortedRequests (sortedRequests l) = sortedRequests l
  /\ (StronglySorted inOrder l -> sortedRequests l = l).
Proof.
  intros Hvalid. split.
  - apply sortedRequests_of_sorted.
    + rewrite Forall_forall in Hvalid |- *. intros r Hr. apply Hvalid.
      apply (Permutation_in _ (Array_sort_perm compareRequests l)). exact Hr.
    + apply sortedRequests_sorted. exact Hvalid.
  - apply sortedRequests_of_sorted. exact Hvalid.
Qed.

Lemma lowerChar_idempotent (c : ascii) : Str.lowerChar (Str.lowerChar c) = Str.lowerChar c.
Proof. destruct c as [[] [] [] [] [] [] [] []]; reflexivity. Qed.

Lemma lowerChar_whiteSpace (c : ascii) :
  Str.isWhiteSpace (Str.lowerChar c) = Str.isWhiteSpace c.
Proof. destruct c as [[] [] [] [] [] [] [] []]; reflexivity. Qed.

Lemma toLowerCase_idempotent (s : string) :
  Str.toLowerCase (Str.toLowerCase s) = Str.toLowerCase s.
Proof.
  induction s as [|c s IH]; simpl; [reflexivity|].
  rewrite lowerChar_idempotent, IH. reflexivity.
Qed.

Lemma toLowerCase_blank (s : string) : blank (Str.toLowerCase s) <-> blank s.
Proof.
  unfold blank. induction s as [|c s IH]; simpl; [reflexivity|].
  split; intros H x [<- | Hx].
  - rewrite <- lowerChar_whiteSpace. apply H. left. reflexivity.
  - apply (proj1 IH (fun y Hy => H y (or_intror Hy)) x Hx).
  - rewrite lowerChar_whiteSpace. apply H. left. reflexivity.
  - apply (proj2 IH (fun y Hy => H y (or_intror Hy)) x Hx).
Qed.

Lemma searchPasses_lowered (term : string) (req : ServiceRequest) :
  searchPasses (Str.toLowerCase term) req = searchPasses term req.
Proof.
  unfold searchPasses. rewrite toLowerCase_idempotent.
  destruct (String.eqb_spec (Str.trim term) "") as [He | Hne];
    destruct (String.eqb_spec (Str.trim (Str.toLowerCase term)) "") as [He' | Hne'];
    try reflexivity.
  - exfalso. apply Hne'. apply trim_empty, toLowerCase_blank, trim_empty. exact He.
  - exfalso. apply Hne. apply trim_empty, toLowerCase_blank, trim_empty. exact He'.
Qed.

(** X10. The search does not tell the cases of the term apart: two terms
    with the same lower-case form give the same requester view, so typing
    a term in capitals or in small letters shows the same entities. *)
Theorem search_ignores_case_of_term (s : AppState) (term1 term2 : string) :
  Str.toLowerCase term1 = Str.toLowerCase term2 ->
  filteredRequests (setSearchTerm term1 s) = filteredRequests (setSearchTerm term2 s).
Proof.
  intros Heq. unfold filteredRequests. simpl.
  apply filter_ext. intros req.
  rewrite <- (searchPasses_lowered term1), <- (searchPasses_lowered term2), Heq.
  reflexivity.
Qed.

(** *** The delivery completion time, unvalidated *)

Lemma split_no_separator (sep : ascii) (s : string) :
  hasChar sep s = false -> Str.split sep s = [s].
Proof.
  unfold hasChar. induction s as [|c s IH]; simpl; [reflexivity|].
  rewrite Ascii.eqb_sym. intros H. apply orb_false_iff in H. destruct H as [Hc Hs].
  rewrite Hc, (IH Hs). reflexivity.
Qed.

Lemma updateRequest_sent (w : World) (id : string) (updates : Updates.t)
  (n : nat) (st : AppState) :
  sent (run w (updateRequest id updates) n st)
  = [mkRequest ("/api/requests/" ++ id) PATCH (UpdateBody updates)].
Proof.
  unfold updateRequest, await_fetch, processResponse, API_BASE_PATH.
  answer; reflexivity.
Qed.

(** X11. The delivery workflow does not validate its time: when the
    target's request time is an Invalid Date, or when the input has no
    colon, the completion time it computes is an Invalid Date, and the
    update that carries it is sent to the service all the same. *)
Theorem completionDate_is_not_validated
  (w : World) (cl : AppState) (target : string) (reqToUpdate : ServiceRequest)
  (deliveryStaffName deliveryStaffNumber completionTimeStr : string)
  (n : nat) (st : AppState) :
  pendingId (completingDelivery cl) = Some target ->
  find (fun r => (id r =? target)%string) (requests cl) = Some reqToUpdate ->
  getTime (requestTime reqToUpdate) = NaN \/ hasChar ":" completionTimeStr = false ->
  completionDate (requestTime reqToUpdate) completionTimeStr = InvalidDate
  /\ sent (run w (handleConfirmCompleteDelivery cl deliveryStaffName deliveryStaffNumber
                    completionTimeStr) n st)
     = [mkRequest ("/api/requests/" ++ target) PATCH
          (UpdateBody (deliveryUpdates InvalidDate deliveryStaffName
                         deliveryStaffNumber))].
Proof.
  intros Hpending Hfind Hbad.
  assert (Hdate : completionDate (requestTime reqToUpdate) completionTimeStr = InvalidDate).
  { unfold completionDate, setHours, Date_copy. simpl getTime.
    destruct Hbad as [Hnan | Hcolon].
    - rewrite Hnan. reflexivity.
    - rewrite (split_no_separator _ _ Hcolon). simpl map. simpl nth.
      destruct (getTime (requestTime reqToUpdate)); [reflexivity|].
      destruct (Number_ completionTimeStr); reflexivity. }
  split; [exact Hdate|].
  rewrite (run_handleConfirmCompleteDelivery w cl target reqToUpdate _ _ _ n st
             Hpending Hfind).
  cbv zeta. rewrite Hdate.
  pose proof (updateRequest_sent w target
                (deliveryUpdates InvalidDate deliveryStaffName deliveryStaffNumber) n st)
    as Hsent.
  destruct (settled (run w (updateRequest target _) n st)); exact Hsent.
Qed.

Lemma two_digits_parse (h m : Z) :
  0 <= h < 100 -> 0 <= m < 100 ->
  map Number_ (Str.split ":" (hhmm h m)) = [Num h; Num m].
Proof.
  clear tza. intros Hh Hm.
  assert (Hall : forallb (fun a => forallb (fun b => parsesAs (Z.of_nat a) (Z.of_nat b))
                                     (seq 0 100)) (seq 0 100) = true)
    by (vm_compute; reflexivity).
  rewrite forallb_forall in Hall.
  specialize (Hall (Z.to_nat h)). rewrite forallb_forall in Hall.
  specialize (Hall ltac:(apply in_seq; lia) (Z.to_nat m) ltac:(apply in_seq; lia)).
  rewrite !Z2Nat.id in Hall by lia.
  unfold parsesAs in Hall.
  destruct (map Number_ (Str.split ":" (hhmm h m))) as [|[|a] [|[|b] [|? ?]]];
    try discriminate.
  apply andb_true_iff in Hall. destruct Hall as [Ha Hb].
  apply Z.eqb_eq in Ha, Hb. subst. reflexivity.
Qed.

(** X12. The delivery workflow does not keep the hour and minute in range:
    for any two-digit hour and minute the completion time is the start of
    the request's local day plus that many hours and minutes, so an hour
    from 24 on puts the completion on a later calendar day than the
    request.  (The zone must have that local time, and the result must be
    in the range of dates.) *)
Theorem completionDate_rolls_over (requestTime : Date) (t h m : Z) :
  getTime requestTime = Num t ->
  0 <= h < 100 -> 0 <= m < 100 ->
  let requested := Time.LocalTime tza t in
  let local := Time.Day requested * Time.msPerDay
               + h * Time.msPerHour + m * Time.msPerMinute in
  tza (Time.UTC tza local) true = tza local false ->
  Z.abs (Time.UTC tza local) <= Time.maxTime ->
  completionDate requestTime (hhmm h m) = mkDate (Num (Time.UTC tza local))
  /\ Time.LocalTime tza (Time.UTC tza local) = local
  /\ Time.Day local = Time.Day requested + (60 * h + m) / 1440
  /\ (24 <= h -> Time.Day requested < Time.Day local).
Proof.
  clear parse toLocaleString.
  intros Ht Hh Hm requested local Hzone Hrange.
  split; [|split].
  - unfold completionDate. rewrite two_digits_parse by assumption. simpl nth.
    unfold setHours, Date_copy. simpl getTime. rewrite Ht.
    cbv beta iota zeta delta [Time.MakeTime Time.MakeDate Time.TimeClip].
    replace (Time.Day (Time.LocalTime tza t) * Time.msPerDay
             + (h * Time.msPerHour + m * Time.msPerMinute + 0 * Time.msPerSecond + 0))
      with local by (unfold local, requested; ring).
    apply Z.leb_le in Hrange. rewrite Hrange. reflexivity.
  - unfold Time.LocalTime. rewrite Hzone. unfold Time.UTC. ring.
  - assert (Hday : Time.Day local = Time.Day requested + (60 * h + m) / 1440).
    { unfold local. generalize (Time.Day requested). intros d.
      unfold Time.Day, Time.msPerDay, Time.msPerHour, Time.msPerMinute.
      Z.div_mod_to_equations. lia. }
    split; [exact Hday|].
    intros H24. rewrite Hday. Z.div_mod_to_equations. lia.
Qed.

(** *** App: pages, session and theme *)

Lemma playShell_keeps_anonymous (events : list ShellEvent) (s : Shell) :
  (role s = None -> isAuthenticated s = false) ->
  role (playShell events s) = None -> isAuthenticated (playShell events s) = false.
Proof.
  revert s. induction events as [|e events IH]; intros s Hinv; simpl; [exact Hinv|].
  apply IH.
  destruct s as [[r|] [|] t]; destruct e; simpl in *;
    intros; try discriminate; auto.
Qed.

Lemma playShell_came_through (events : list ShellEvent) (s : Shell) :
  (isAuthenticated (playShell events s) = true ->
   isAuthenticated s = true \/ In onLoginSuccess events)
  /\ (forall r, role (playShell events s) = Some r ->
                role s = Some r \/ In (onSelectRole r) events).
Proof.
  revert s. induction events as [|e events IH]; intros s; simpl; [auto|].
  destruct (IH (if handsOut (App s) e then shellHandler e s else s)) as [IHa IHr].
  split.
  - intros H. destruct (IHa H) as [Ha | Hin]; [|auto].
    destruct s as [[r|] [|] t]; destruct e; simpl in Ha; simpl; auto; discriminate.
  - intros r H. destruct (IHr r H) as [Hr | Hin]; [|auto].
    destruct s as [[r'|] [|] t]; destruct e; simpl in Hr; simpl; auto;
      try discriminate; injection Hr as ->; auto.
Qed.

(** X15. Whatever is pressed, from the first render on, the page follows
    the session: the role selection is on screen exactly when no role is
    chosen, and then nobody is logged in; the login page when a role is
    chosen and nobody is logged in; the main application when somebody is.
    The main application is reached only after a login, and in a role
    that was selected. *)
Theorem App_pages_follow_the_session
  (localStorage : option (string -> option string)) (events : list ShellEvent) :
  let s := playShell events (initialShell localStorage) in
  match App s with
  | RoleSelectionPage => role s = None /\ isAuthenticated s = false
  | LoginPage r => role s = Some r /\ isAuthenticated s = false
  | MainApplication r t =>
      role s = Some r /\ isAuthenticated s = true /\ t = theme s
      /\ In onLoginSuccess events /\ In (onSelectRole r) events
  end.
Proof.
  cbv zeta.
  pose proof (playShell_keeps_anonymous events (initialShell localStorage)
                (fun _ => eq_refl)) as Hanon.
  destruct (playShell_came_through events (initialShell localStorage)) as [Hlogin Hrole].
  unfold App.
  destruct (role (playShell events (initialShell localStorage))) as [r|] eqn:Hr.
  - destruct (isAuthenticated (playShell events (initialShell localStorage))) eqn:Ha;
      simpl; [|auto].
    repeat split; auto.
    + destruct (Hlogin eq_refl) as [H | H]; [discriminate | exact H].
    + destruct (Hrole r eq_refl) as [H | H]; [discriminate | exact H].
  - split; [reflexivity | apply Hanon; reflexivity].
Qed.

Lemma playShell_without_toggle (events : list ShellEvent) (s : Shell) :
  ~ In onToggleTheme events -> theme (playShell events s) = theme s.
Proof.
  revert s. induction events as [|e events IH]; intros s Hno; simpl; [reflexivity|].
  rewrite IH by (intros H; apply Hno; right; exact H).
  destruct (handsOut (App s) e); [|reflexivity].
  destruct e; try reflexivity. exfalso. apply Hno. left. reflexivity.
Qed.

(** X16. The theme survives a reload: the initialiser reads back the theme
    the effect stored, the document carries the class 'dark' exactly under
    the dark theme, and no other item of the storage is written.  The
    initial theme is light only when the stored item is 'light', and dark
    in every other case.  Toggling twice gives the theme back, and
    selecting a role, logging in and logging out leave it alone. *)
Theorem theme_survives_reload (t : Theme) (h : Host) :
  initialTheme (Some (items (themeEffect t h))) = t
  /\ (darkClass (themeEffect t h) = true <-> t = dark)
  /\ (forall key, key <> "theme" -> items (themeEffect t h) key = items h key)
  /\ (forall localStorage,
        initialTheme localStorage = light
        <-> exists getItem, localStorage = Some getItem
                            /\ getItem "theme" = Some "light")
  /\ toggleTheme (toggleTheme t) = t
  /\ (forall events s, ~ In onToggleTheme events -> theme (playShell events s) = theme s).
Proof.
  split; [destruct t; reflexivity|].
  split; [destruct t; simpl; split; congruence|].
  split.
  { intros key Hkey. simpl. unfold setItem.
    destruct (String.eqb_spec key "theme"); [contradiction | reflexivity]. }
  split.
  { intros [getItem|]; simpl.
    - destruct (getItem "theme") as [v|] eqn:Hv.
      + destruct (String.eqb_spec v "dark") as [-> | Hd].
        * split; [discriminate|]. intros (g & Hg & Hl). injection Hg as <-.
          rewrite Hv in Hl. discriminate.
        * destruct (String.eqb_spec v "light") as [-> | Hl'].
          -- split; [|reflexivity]. intros _. exists getItem. auto.
          -- split; [discriminate|]. intros (g & Hg & Hl). injection Hg as <-.
             rewrite Hv in Hl. injection Hl as ->. contradiction.
      + split; [discriminate|]. intros (g & Hg & Hl). injection Hg as <-.
        rewrite Hv in Hl. discriminate.
    - split; [discriminate|]. intros (g & Hg & _). discriminate. }
  split; [destruct t; reflexivity | apply playShell_without_toggle].
Qed.

(** *** The CSV export *)

Lemma hasChar_append (c : ascii) (a b : string) :
  hasChar c (a ++ b) = hasChar c a || hasChar c b.
Proof.
  unfold hasChar. induction a as [|x a IH]; simpl; [reflexivity|].
  rewrite IH, orb_assoc. reflexivity.
Qed.

Lemma hasChar_join (c : ascii) (sep : string) (parts : list string) :
  hasChar c sep = false ->
  Forall (fun p => hasChar c p = false) parts ->
  hasChar c (join sep parts) = false.
Proof.
  intros Hsep. induction 1 as [|p parts Hp Hparts IH]; [reflexivity|].
  destruct parts as [|q parts]; [exact Hp|].
  change (join sep (p :: q :: parts)) with (p ++ sep ++ join sep (q :: parts)).
  rewrite !hasChar_append, Hp, Hsep, IH. reflexivity.
Qed.

Lemma split_at_separator (sep : ascii) (a b : string) :
  hasChar sep a = false ->
  Str.split sep (a ++ String sep b) = a :: Str.split sep b.
Proof.
  unfold hasChar. induction a as [|c a IH]; simpl.
  - rewrite Ascii.eqb_refl. reflexivity.
  - rewrite Ascii.eqb_sym. intros H. apply orb_false_iff in H. destruct H as [Hc Ha].
    rewrite Hc, (IH Ha). reflexivity.
Qed.

Lemma split_join (sep : ascii) (p : string) (parts : list string) :
  Forall (fun q => hasChar sep q = false) (p :: parts) ->
  Str.split sep (join (String sep EmptyString) (p :: parts)) = p :: parts.
Proof.
  revert p. induction parts as [|q parts IH]; intros p Hall.
  - apply split_no_separator. exact (Forall_inv Hall).
  - change (join (String sep EmptyString) (p :: q :: parts))
      with (p ++ String sep (join (String sep EmptyString) (q :: parts))).
    rewrite split_at_separator by exact (Forall_inv Hall).
    rewrite IH by exact (Forall_inv_tail Hall). reflexivity.
Qed.

(** X19. The export has the header line and then one line for each entity
    of the store, in the order of the store (not of the sorted or filtered
    view), each line its twelve cells joined by commas, as long as no cell
    holds a line feed. *)
Theorem csvContent_one_line_per_request (requests : list ServiceRequest) :
  (forall req, In req requests ->
     Forall (fun cell => hasChar lineFeed cell = false) (csvCells req)) ->
  Str.split lineFeed (csvContent requests)
  = join "," csvHeaders :: map (fun req => join "," (csvCells req)) requests
  /\ List.length (Str.split lineFeed (csvContent requests)) = S (List.length requests)
  /\ (forall req, List.length (csvCells req) = List.length csvHeaders).
Proof.
  intros Hcells.
  assert (Hlines : Str.split lineFeed (csvContent requests)
                   = join "," csvHeaders :: csvRows requests).
  { unfold csvContent. apply split_join. constructor; [reflexivity|].
    unfold csvRows. rewrite Forall_forall. intros row Hrow.
    apply in_map_iff in Hrow. destruct Hrow as (req & <- & Hin).
    apply hasChar_join; [reflexivity | apply Hcells; exact Hin]. }
  split; [exact Hlines|]. split; [|reflexivity].
  rewrite Hlines. unfold csvRows. simpl. rewrite length_map. reflexivity.
Qed.

(** *** Filters and store, apart *)

(** X21. The controls of the view and the store do not reach into each
    other: picking a status, a type or a date or typing a search term
    changes that one filter and leaves the list, the notifications and the
    pending ids as they were; every other handler, whatever the service
    answers, leaves the load flags and the four filters as they were. *)
Theorem filters_and_store_are_apart
  (role : Role) (w : World) (cl : AppState) (e : UiEvent) (n : nat) (st : AppState) :
  let s' := final (run w (handler role cl e) n st) in
  let storeUntouched :=
    requests s' = requests st /\ notifications s' = notifications st
    /\ confirmingComplete s' = confirmingComplete st
    /\ confirmingDelete s' = confirmingDelete st
    /\ completingDelivery s' = completingDelivery st in
  match e with
  | PickStatus v =>
      storeUntouched /\ statusFilter s' = v
      /\ serviceTypeFilter s' = serviceTypeFilter st
      /\ dateFilter s' = dateFilter st /\ searchTerm s' = searchTerm st
  | PickServiceType v =>
      storeUntouched /\ serviceTypeFilter s' = v
      /\ statusFilter s' = statusFilter st
      /\ dateFilter s' = dateFilter st /\ searchTerm s' = searchTerm st
  | PickDate v =>
      storeUntouched /\ dateFilter s' = v
      /\ statusFilter s' = statusFilter st
      /\ serviceTypeFilter s' = serviceTypeFilter st /\ searchTerm s' = searchTerm st
  | TypeSearch v =>
      storeUntouched /\ searchTerm s' = v
      /\ statusFilter s' = statusFilter st
      /\ serviceTypeFilter s' = serviceTypeFilter st /\ dateFilter s' = dateFilter st
  | _ => sameControls s' st
  end.
Proof.
  unfold sameControls.
  destruct e, role; cbv zeta; unfold handler, onComplete;
    try (repeat split; reflexivity);
    outcomes; repeat split; reflexivity.
Qed.
End Engine.

(** ** The model at concrete inputs *)

Example isoParse_utc : isoParse "2024-03-05T13:00:00.000Z" = Num 1709643600000.
Proof. reflexivity. Qed.

Example isoParse_rejects : isoParse "5 March 2024" = NaN.
Proof. reflexivity. Qed.

(** One instant, two calendar dates: 03:00 UTC on 6 March is still 5 March
    five hours to the west. *)
Example local_calendar_date :
  toLocaleDateString_enCA utcZone (mkDate (Num 1709694000000)) = "2024-03-06"
  /\ toLocaleDateString_enCA westZone (mkDate (Num 1709694000000)) = "2024-03-05"
  /\ toLocaleDateString_enCA utcZone InvalidDate = "Invalid Date".
Proof. repeat split. Qed.

Example string_methods :
  Str.trim (String (ascii_of_N 9) " QF 400  ") = "QF 400"
  /\ Str.toLowerCase "QF400-Bay" = "qf400-bay"
  /\ Str.includes "qf400" "f40" = true
  /\ Str.includes "qf400" "" = true
  /\ Str.includes "qf400" "x" = false
  /\ Str.split ":" "14:30" = ["14"; "30"]
  /\ Number_ " 07 " = Num 7
  /\ Number_ "" = Num 0
  /\ Number_ "7h" = NaN.
Proof. repeat split. Qed.

(** Inputs of the delivery dialog that are not a time of day: an empty
    input and one without a colon give an Invalid Date, an hour past 23
    runs into the next day. *)
Example completionDate_malformed :
  completionDate westZone (requestTime request1) "" = InvalidDate
  /\ completionDate westZone (requestTime request1) "1430" = InvalidDate
  /\ toLocaleDateString_enCA westZone
       (completionDate westZone (requestTime request1) "25:00") = "2024-03-06".
Proof. repeat split. Qed.

Example filteredRequests_sample :
  filteredRequests westZone searchingState = [request1]
  /\ filteredDeliveryRequests sampleState = [request3; request1; request2]
  /\ pendingCount sampleState = 2%nat.
Proof. repeat split. Qed.

Example sortedRequests_sample :
  map id (sortedRequests [request1; request2; request3]) = ["REQ-3"; "REQ-1"; "REQ-2"].
Proof. reflexivity. Qed.

(** The delivery completion of an id that is no longer in the list sends
    nothing and reports the failure. *)
Example delivery_target_gone :
  let st := setRequests (fun _ => [request2]) sampleState in
  let r := run failingService
             (handleConfirmCompleteDelivery isoParse westZone st "Cy Ng" "D-7" "14:30")
             0 st in
  sent r = []
  /\ requests (final r) = [request2]
  /\ notifications (final r)
     = [Notif.mk "notif-1709650000000" "Failed to complete task." Notif.error].
Proof. repeat split. Qed.

(** A load that the service answers with a single record instead of an
    array fails, is reported, and ends with the loading flag cleared. *)
Example loadRequests_failure :
  let r := run (answering createdRecord) (loadRequests isoParse) 0 sampleState in
  isLoading (final r) = false
  /\ error (final r) = Some "Failed to load service requests. Please try again later."
  /\ requests (final r) = requests sampleState.
Proof. repeat split. Qed.

(** ** The properties at concrete inputs *)


(** C6 at a concrete input: the service answers 500 and the list stays. *)
Lemma handleConfirmDelete_outcome_witness :
  pendingId (confirmingDelete sampleState) = Some "REQ-1"
  /\ requests (final (run failingService (handleConfirmDelete sampleState) 0 sampleState))
     = [request1; request2; request3]
  /\ notifications (final (run failingService (handleConfirmDelete sampleState)
                             0 sampleState))
     = [Notif.mk "notif-1709650000000" "Failed to delete request." Notif.error].
Proof.
  split; [reflexivity|].
  exact (handleConfirmDelete_outcome failingService sampleState "REQ-1" 0%nat sampleState
           eq_refl).
Defined.






(** C3 at the input of the specification, given Completed first. *)
Lemma sortedRequests_witness :
  Forall (fun r => validDate (requestTime r)) [request2; request1; request3]
  /\ sortedRequests [request2; request1; request3] = [request3; request1; request2].
Proof.
  assert (Hvalid : Forall (fun r => validDate (requestTime r))
                     [request2; request1; request3])
    by (repeat constructor; eexists; reflexivity).
  split; [exact Hvalid|].
  refine (proj2 (proj2 (proj2 (sortedRequests_pending_first_newest_first _ Hvalid)))
            request2 request1 request3 1709630000000 1709643600000 1709647200000
            eq_refl eq_refl eq_refl eq_refl eq_refl eq_refl _ (Permutation_refl _)).
  lia.
Defined.

(** C4 at the input of the specification: of three entities of different
    service types, type = Connect and search = "B12" keep the Connect entity
    in bay B12, and drop the Disconnect entity of the same bay. *)
Lemma filteredRequests_witness :
  In request1 (filteredRequests westZone searchingState)
  /\ ~ In request2 (filteredRequests westZone searchingState).
Proof.
  split.
  - apply (filteredRequests_keeps_exactly westZone searchingState request1).
    split; [left; reflexivity|].
    split; [left; reflexivity|].
    split; [right; reflexivity|].
    split; [left; reflexivity|].
    right. right. left. exists "", "". reflexivity.
  - intros H.
    apply (filteredRequests_keeps_exactly westZone searchingState request2) in H.
    destruct H as (_ & _ & [H | H] & _); discriminate H.
Defined.

(** C10 at a concrete input: a search term of two spaces. *)
Lemma blank_search_term_witness :
  blank (searchTerm blankSearchState)
  /\ filteredRequests westZone blankSearchState = [request1].
Proof.
  assert (Hblank : blank (searchTerm blankSearchState)).
  { intros c [<- | [<- | []]]; reflexivity. }
  split; [exact Hblank|].
  exact (proj1 (proj1 (blank_search_term_filters_nothing westZone blankSearchState)
                  Hblank)).
Defined.

(** C7, counterexample: a record whose request_time is not a date and whose
    completion_time is the empty string.  The call that returns it
    resolves, the decoded entity has an Invalid Date as request time, and
    the completion_time, though present, stays absent. *)
Lemma unparseable_request_time_decodes :
  settled (run (answering undatedRecord) (createRequest isoParse newRequest1)
             0 sampleState)
  = Resolved (transformRequest isoParse undatedRecord)
  /\ requestTime (transformRequest isoParse undatedRecord) = InvalidDate
  /\ Wire.completion_time undatedRecord = JsString ""
  /\ completionTime (transformRequest isoParse undatedRecord) = None.
Proof.
  repeat split.
Qed.

(** C7 at a concrete input. *)
Lemma transformRequest_decodes_witness :
  Wire.request_time undatedRecord = JsString "not a date"
  /\ isoParse "not a date" = NaN
  /\ requestTime (transformRequest isoParse undatedRecord) = InvalidDate.
Proof.
  split; [reflexivity|]. split; [reflexivity|].
  exact (proj2 (proj2 (proj1 (proj2 (proj2 (transformRequest_decodes isoParse
                                              undatedRecord)))))
           "not a date" eq_refl eq_refl).
Defined.

(** C9, the failing input: a create and a delete both fail while the clock
    reads the same millisecond.  The two notifications get the same id, and
    dismissing that id removes both. *)
Theorem notification_ids_collide :
  let r := run unreachableSameMillisecond
             (bind (addRequest isoParse newRequest1)
                (fun _ => handleConfirmDelete sampleState)) 0 sampleState in
  notifications (final r)
  = [Notif.mk "notif-1709650000000" "Failed to create service request." Notif.error;
     Notif.mk "notif-1709650000000" "Failed to delete request." Notif.error]
  /\ ~ NoDup (map Notif.id (notifications (final r)))
  /\ notifications (final (run unreachableSameMillisecond
                             (removeNotification "notif-1709650000000")
                             (reads r) (final r))) = [].
Proof.
  split; [reflexivity|]. split; [|reflexivity].
  intros H. inversion H as [|? ? Hnotin _]. apply Hnotin. left. reflexivity.
Qed.

(** ** The further properties at concrete inputs *)

(** X3 at a concrete input: the service answers 500 to a delete. *)
Lemma api_rejects_witness :
  ok (mkResponse false 500 "Internal Server Error" "database unavailable"
        (Some "text/plain") None) = false
  /\ settled (run failingService (deleteRequest "REQ-1") 0 sampleState)
     = Rejected "API Error: 500 Internal Server Error - database unavailable".
Proof.
  split; [reflexivity|].
  exact (proj2 (proj2 (proj2
           (api_rejects_with_status_and_body isoParse failingService
              (mkResponse false 500 "Internal Server Error" "database unavailable"
                 (Some "text/plain") None) 0%nat sampleState eq_refl)))
           "REQ-1" eq_refl).
Defined.

(** X6 at a concrete input: the delivery completion of "REQ-9", which the
    list does not hold. *)
Lemma delivery_lookup_witness :
  pendingId (completingDelivery missingTargetState) = Some "REQ-9"
  /\ sent (run (answering completedWithoutTime)
             (handleConfirmCompleteDelivery isoParse westZone missingTargetState
                "Cy Ng" "D-7" "14:30") 0 missingTargetState) = []
  /\ requests (final (run (answering completedWithoutTime)
                        (handleConfirmCompleteDelivery isoParse westZone
                           missingTargetState "Cy Ng" "D-7" "14:30")
                        0 missingTargetState))
     = [request1; request2; request3].
Proof.
  split; [reflexivity|].
  destruct (proj1 (delivery_lookup_uses_rendered_list isoParse westZone
                     (answering completedWithoutTime) missingTargetState "REQ-9"
                     "Cy Ng" "D-7" "14:30" 0%nat missingTargetState eq_refl) eq_refl)
    as (Hsent & Hreq & _).
  split; [exact Hsent | exact Hreq].
Defined.

(** X14 at a concrete input: the three ids stay distinct through a
    delete. *)
Lemma distinct_ids_witness :
  NoDup (map id (requests sampleState))
  /\ NoDup (map id (requests (final (run (answering completedWithoutTime)
                                       (handleConfirmDelete sampleState)
                                       0 sampleState)))).
Proof.
  assert (Hnd : NoDup (map id (requests sampleState))).
  { repeat constructor; simpl; intuition discriminate. }
  split; [exact Hnd|].
  exact (proj1 (distinct_ids_preserved isoParse (answering completedWithoutTime)
                  sampleState 0%nat sampleState Hnd)).
Defined.

(** X20 at a concrete input: "REQ-4" is created and deleted again. *)
Lemma create_then_delete_witness :
  requests (final (run (answering createdRecord) (handleConfirmDelete deletingCreatedState)
                     1 (final (run (answering createdRecord)
                                 (addRequest isoParse newRequest1) 0 sampleState))))
  = [request1; request2; request3].
Proof.
  assert (Hfresh : ~ In (id (transformRequest isoParse createdRecord))
                     (map id (requests sampleState))).
  { simpl. intuition discriminate. }
  exact (proj2 (create_then_delete_restores isoParse (answering createdRecord)
                  (answering createdRecord) newRequest1
                  (transformRequest isoParse createdRecord) deletingCreatedState
                  0%nat sampleState eq_refl Hfresh eq_refl eq_refl)).
Defined.

(** X17 at a concrete input: after a failed load a request is created, and
    the panel still shows the error. *)
Lemma load_error_witness :
  requests (final (run (answering createdRecord)
                     (handler isoParse westZone REQUEST failedLoadState
                        (SubmitRequest newRequest1)) 0 failedLoadState))
  = transformRequest isoParse createdRecord :: [request1; request2; request3]
  /\ mainPanel westZone REQUEST
       (final (run (answering createdRecord)
                 (handler isoParse westZone REQUEST failedLoadState
                    (SubmitRequest newRequest1)) 0 failedLoadState))
     = ErrorPanel "Failed to load service requests. Please try again later.".
Proof.
  split; [reflexivity|].
  exact (load_error_outlives_handlers isoParse westZone REQUEST
           (answering createdRecord) (SubmitRequest newRequest1) 0%nat failedLoadState
           "Failed to load service requests. Please try again later."
           eq_refl eq_refl).
Defined.

(** X8 at a concrete input. *)
Lemma views_keep_the_order_witness :
  Forall (fun r => validDate (requestTime r)) (requests searchingState)
  /\ StronglySorted inOrder (filteredRequests westZone searchingState).
Proof.
  assert (Hvalid : Forall (fun r => validDate (requestTime r)) (requests searchingState))
    by (repeat constructor; eexists; reflexivity).
  split; [exact Hvalid|].
  exact (proj1 (views_keep_the_order westZone searchingState Hvalid)).
Defined.

(** X9 at a concrete input. *)
Lemma sortedRequests_idempotent_witness :
  Forall (fun r => validDate (requestTime r)) [request1; request2; request3]
  /\ sortedRequests (sortedRequests [request1; request2; request3])
     = sortedRequests [request1; request2; request3].
Proof.
  assert (Hvalid : Forall (fun r => validDate (requestTime r))
                     [request1; request2; request3])
    by (repeat constructor; eexists; reflexivity).
  split; [exact Hvalid|].
  exact (proj1 (sortedRequests_idempotent _ Hvalid)).
Defined.

(** X10 at a concrete input: "B12" and "b12". *)
Lemma search_ignores_case_witness :
  Str.toLowerCase "B12" = Str.toLowerCase "b12"
  /\ filteredRequests westZone (setSearchTerm "B12" searchingState)
     = filteredRequests westZone (setSearchTerm "b12" searchingState).
Proof.
  split; [reflexivity|].
  exact (search_ignores_case_of_term westZone searchingState "B12" "b12" eq_refl).
Defined.

(** X11 at a concrete input: the time is typed without its colon. *)
Lemma completionDate_not_validated_witness :
  hasChar ":" "1430" = false
  /\ sent (run (answering completedWithoutTime)
             (handleConfirmCompleteDelivery isoParse westZone sampleState
                "Cy Ng" "D-7" "1430") 0 sampleState)
     = [mkRequest "/api/requests/REQ-1" PATCH
          (UpdateBody (deliveryUpdates InvalidDate "Cy Ng" "D-7"))].
Proof.
  split; [reflexivity|].
  exact (proj2 (completionDate_is_not_validated isoParse westZone
                  (answering completedWithoutTime) sampleState "REQ-1" request1
                  "Cy Ng" "D-7" "1430" 0%nat sampleState eq_refl eq_refl
                  (or_intror eq_refl))).
Defined.

(** X12 at a concrete input: "25:00" on a request of 5 March is 01:00 on
    6 March. *)
Lemma completionDate_rolls_over_witness :
  toLocaleDateString_enCA westZone (requestTime request1) = "2024-03-05"
  /\ completionDate westZone (requestTime request1) "25:00"
     = mkDate (Num 1709704800000)
  /\ toLocaleDateString_enCA westZone (mkDate (Num 1709704800000)) = "2024-03-06".
Proof.
  split; [reflexivity|]. split; [|reflexivity].
  assert (Hh : 0 <= 25 < 100) by lia.
  assert (Hm : 0 <= 0 < 100) by lia.
  assert (Hrange : Z.abs 1709704800000 <= Time.maxTime) by (vm_compute; discriminate).
  exact (proj1 (completionDate_rolls_over westZone (requestTime request1)
                  1709643600000 25 0 eq_refl Hh Hm eq_refl Hrange)).
Defined.

(** X19 at a concrete input, the dates rendered as calendar dates. *)
Lemma csvContent_witness :
  List.length (Str.split lineFeed
                 (csvContent (toLocaleDateString_enCA utcZone)
                    [request1; request2; request3])) = 4%nat.
Proof.
  assert (Hcells : forall req, In req [request1; request2; request3] ->
            Forall (fun cell => hasChar lineFeed cell = false)
              (csvCells (toLocaleDateString_enCA utcZone) req)).
  { intros req [<- | [<- | [<- | []]]]; repeat constructor. }
  exact (proj1 (proj2 (csvContent_one_line_per_request
                         (toLocaleDateString_enCA utcZone) _ Hcells))).
Defined.
